(** * Syrian Math Tutor API: the request pipeline of [main.py]

    A shallow embedding of the two POST endpoints of the service, [/solve]
    and [/chat], and of the provider client [call_groq_api] they share.

    - Python text is a list of Unicode codepoints, since the language
      detection of the source compares single characters by codepoint.
    - The values that travel in messages, payloads and provider responses
      are the Python values [json.loads] can return.
    - Exceptions are an inductive type, a [try]/[except] is a function on
      it, and an endpoint is a computation that may log outbound requests
      and ends in a value or in a raised exception.
    - What the environment and the network decide (the API key, what
      [json.loads] makes of a form field, the answer of the provider,
      whether a reply can be rendered as JSON) is taken as section
      variables, so every statement holds for all of them. *)

From Stdlib Require Import ZArith List String Ascii Bool Lia.
From Stdlib Require Import Strings.Byte DecimalString.
Import ListNotations.
Set Warnings "-register-all".
Local Open Scope string_scope.
Local Open Scope Z_scope.
Local Open Scope list_scope.

(** ** Text *)

Definition codepoint := Z.
Definition str := list codepoint.

Module Utf8.

(** The source file is UTF-8; a literal of it is read here from its bytes.
    [need] counts the continuation bytes still expected and [acc] holds the
    bits gathered so far. *)
Fixpoint decode_from (need : nat) (acc : Z) (s : string) : str :=
  match s with
  | EmptyString => []
  | String a rest =>
      let b := Z.of_N (N_of_ascii a) in
      match need with
      | O =>
          if b <? 128 then b :: decode_from 0 0 rest
          else if b <? 224 then decode_from 1 (Z.land b 31) rest
          else if b <? 240 then decode_from 2 (Z.land b 15) rest
          else decode_from 3 (Z.land b 7) rest
      | S O => (Z.shiftl acc 6 + Z.land b 63) :: decode_from 0 0 rest
      | S n => decode_from n (Z.shiftl acc 6 + Z.land b 63) rest
      end
  end.

Definition decode (s : string) : str := decode_from 0 0 s.

End Utf8.

(** [py "..."] is the Python string literal with that text. *)
Definition py (s : string) : str := Utf8.decode s.

Fixpoint str_eqb (a b : str) : bool :=
  match a, b with
  | [], [] => true
  | x :: a', y :: b' => (x =? y) && str_eqb a' b'
  | _, _ => false
  end.

(** [a in b] on two strings: [a] occurs in [b] as a substring. *)
Fixpoint str_prefixb (a b : str) : bool :=
  match a, b with
  | [], _ => true
  | x :: a', y :: b' => (x =? y) && str_prefixb a' b'
  | _ :: _, [] => false
  end.

Fixpoint str_containsb (a b : str) : bool :=
  str_prefixb a b ||
  match b with
  | [] => false
  | _ :: b' => str_containsb a b'
  end.

(** ** Values

    [None], [True]/[False], numbers, [str], [list] and [dict] (keys in
    insertion order). A float is kept by its decimal literal
    [mantissa * 10 ^ exponent], which is how the source writes it and how
    it is serialised. *)
Inductive value : Type :=
  | PNone
  | PBool (b : bool)
  | PInt (n : Z)
  | PFloat (mantissa exponent : Z)
  | PStr (s : str)
  | PList (items : list value)
  | PDict (entries : list (str * value)).

Fixpoint lookup (k : str) (entries : list (str * value)) : option value :=
  match entries with
  | [] => None
  | (k', v) :: rest => if str_eqb k k' then Some v else lookup k rest
  end.

(** Truth value of an object, as [if], [not], [and] and [or] test it. *)
Definition truthy (v : value) : bool :=
  match v with
  | PNone => false
  | PBool b => b
  | PInt n => negb (n =? 0)
  | PFloat m _ => negb (m =? 0)
  | PStr s => match s with [] => false | _ => true end
  | PList l => match l with [] => false | _ => true end
  | PDict d => match d with [] => false | _ => true end
  end.

(** An optional form field: [None] or a string; falsy when [None] or empty. *)
Definition truthy_text (t : option str) : bool :=
  match t with
  | Some (_ :: _) => true
  | _ => false
  end.

(** ** Exceptions *)
Inductive exn : Type :=
  | HTTPException (status_code : Z) (detail : str)   (* fastapi *)
  | HTTPError (msg : str)           (* httpx.HTTPError and its subclasses *)
  | JSONDecodeError (msg : str)
  | KeyError (msg : str)
  | IndexError (msg : str)
  | TypeError (msg : str)
  | AttributeError (msg : str)
  | OtherException (msg : str).

Definition result (A : Type) : Type := exn + A.

Definition is_HTTPError (e : exn) : bool :=
  match e with HTTPError _ => true | _ => false end.

Definition is_JSONDecodeError (e : exn) : bool :=
  match e with JSONDecodeError _ => true | _ => false end.

(** [str(e)]: Starlette prints an [HTTPException] as its status code, a
    colon and its detail; the other exceptions print their message. *)
Definition decimal (n : Z) : str := py (NilZero.string_of_int (Z.to_int n)).

Definition str_of_exn (e : exn) : str :=
  match e with
  | HTTPException status_code detail => decimal status_code ++ py ": " ++ detail
  | HTTPError msg | JSONDecodeError msg | KeyError msg | IndexError msg
  | TypeError msg | AttributeError msg | OtherException msg => msg
  end.

(** ** Operations of the interpreter the endpoints use

    The messages of the built-in errors are CPython's. *)
Definition type_name (v : value) : str :=
  match v with
  | PNone => py "NoneType"
  | PBool _ => py "bool"
  | PInt _ => py "int"
  | PFloat _ _ => py "float"
  | PStr _ => py "str"
  | PList _ => py "list"
  | PDict _ => py "dict"
  end.

Definition quoted (s : str) : str := py "'" ++ s ++ py "'".

Definition is_str (k : str) (v : value) : bool :=
  match v with PStr s => str_eqb k s | _ => false end.

(** [k in v] for a string [k]. *)
Definition py_contains (k : str) (v : value) : result bool :=
  match v with
  | PDict d => inr (match lookup k d with Some _ => true | None => false end)
  | PList l => inr (existsb (is_str k) l)
  | PStr s => inr (str_containsb k s)
  | _ => inl (TypeError (py "argument of type " ++ quoted (type_name v)
                           ++ py " is not iterable"))
  end.

(** [v[k]] for a string [k] (one of the keys the program writes out). *)
Definition py_getitem (v : value) (k : str) : result value :=
  match v with
  | PDict d =>
      match lookup k d with
      | Some x => inr x
      | None => inl (KeyError (quoted k))
      end
  | PList _ => inl (TypeError (py "list indices must be integers or slices, not str"))
  | PStr _ => inl (TypeError (py "string indices must be integers, not 'str'"))
  | _ => inl (TypeError (quoted (type_name v) ++ py " object is not subscriptable"))
  end.

(** [v[0]]. The keys of a decoded JSON object are strings, never [0]. *)
Definition py_getitem0 (v : value) : result value :=
  match v with
  | PList (x :: _) => inr x
  | PList [] => inl (IndexError (py "list index out of range"))
  | PStr (c :: _) => inr (PStr [c])
  | PStr [] => inl (IndexError (py "string index out of range"))
  | PDict _ => inl (KeyError (py "0"))
  | _ => inl (TypeError (quoted (type_name v) ++ py " object is not subscriptable"))
  end.

(** [v.get(k, default)]. *)
Definition py_get (v : value) (k : str) (default : value) : result value :=
  match v with
  | PDict d =>
      inr (match lookup k d with Some x => x | None => default end)
  | _ => inl (AttributeError (quoted (type_name v)
                                ++ py " object has no attribute 'get'"))
  end.

(** The items [list.extend(v)] appends: the elements of a list, the keys of
    a dict, the characters of a string. *)
Definition py_iter (v : value) : result (list value) :=
  match v with
  | PList l => inr l
  | PDict d => inr (map (fun kv => PStr (fst kv)) d)
  | PStr s => inr (map (fun c => PStr [c]) s)
  | _ => inl (TypeError (quoted (type_name v) ++ py " object is not iterable"))
  end.

(** ['\u0600' <= c <= '\u06FF'] *)
Definition in_arabic_block (c : codepoint) : bool :=
  (1536 <=? c) && (c <=? 1791).

(** [any('\u0600' <= c <= '\u06FF' for c in problem_text)]; iterating over
    [None] is a [TypeError]. *)
Definition any_arabic (problem_text : option str) : result bool :=
  match problem_text with
  | Some s => inr (existsb in_arabic_block s)
  | None => inl (TypeError (py "'NoneType' object is not iterable"))
  end.

(** Truth value of [problem_text and any(... for c in problem_text)]: the
    right operand is evaluated only when the left one is truthy. *)
Definition text_and_any_arabic (problem_text : option str) : bool :=
  match problem_text with
  | Some (c :: s) => existsb in_arabic_block (c :: s)
  | _ => false
  end.

(** [problem_text or default] *)
Definition text_or (problem_text : option str) (default : str) : str :=
  match problem_text with
  | Some (c :: s) => c :: s
  | _ => default
  end.

(** [f"{problem_text}"]: [None] prints as its name. *)
Definition format_text (problem_text : option str) : str :=
  match problem_text with
  | Some s => s
  | None => py "None"
  end.

(** ** base64.b64encode *)
Module Base64.

Definition alphabet (i : Z) : codepoint :=
  if i <? 26 then 65 + i
  else if i <? 52 then 97 + (i - 26)
  else if i <? 62 then 48 + (i - 52)
  else if i =? 62 then 43
  else 47.

Definition pad : codepoint := 61.

Definition octet (b : byte) : Z := Z.of_N (Byte.to_N b).

Definition sextet (n : Z) (k : Z) : codepoint :=
  alphabet (Z.land (Z.shiftr n (6 * k)) 63).

Fixpoint b64encode (data : list byte) : str :=
  match data with
  | [] => []
  | [a] =>
      let n := Z.shiftl (octet a) 16 in
      [sextet n 3; sextet n 2; pad; pad]
  | [a; b] =>
      let n := Z.lor (Z.shiftl (octet a) 16) (Z.shiftl (octet b) 8) in
      [sextet n 3; sextet n 2; sextet n 1; pad]
  | a :: b :: c :: rest =>
      let n := Z.lor (Z.lor (Z.shiftl (octet a) 16) (Z.shiftl (octet b) 8))
                     (octet c) in
      sextet n 3 :: sextet n 2 :: sextet n 1 :: sextet n 0 :: b64encode rest
  end.

End Base64.

(** ** Results and computations

    A pure step ends in a value or a raised exception. *)
Definition rbind {A B : Type} (m : result A) (k : A -> result B) : result B :=
  match m with
  | inr a => k a
  | inl e => inl e
  end.

(** [try: body / except ... as e: handler e] around a pure step; a clause
    that does not match the exception raises it again. *)
Definition rtry {A : Type} (body : result A) (handler : exn -> result A)
  : result A :=
  match body with
  | inl e => handler e
  | done => done
  end.

Declare Scope result_scope.
Delimit Scope result_scope with result.
Notation "x <- m ;; k" := (rbind m (fun x => k))
  (at level 61, m at next level, right associativity) : result_scope.
Notation "m ;;; k" := (rbind m (fun _ => k))
  (at level 61, right associativity) : result_scope.

Record request : Type := {
  url : str;
  headers : list (str * str);
  json : value;
  timeout : value
}.

(** What the provider answered: the status, the text of the error
    [raise_for_status] raises for it, and what [response.json()] gives. *)
Record response : Type := {
  status_code : Z;
  reason : str;
  json_result : result value
}.

(** httpx raises an [HTTPStatusError], an [HTTPError], for every status
    that is not a success (200 to 299). *)
Definition raise_for_status (r : response) : result unit :=
  if (200 <=? status_code r) && (status_code r <=? 299) then inr tt
  else inl (HTTPError (reason r)).

(** A read-once upload: its declared MIME type and what [read()] gives. *)
Record UploadFile : Type := {
  content_type : option str;
  read : result (list byte)
}.

(** A computation sees the requests sent so far, may send more, and ends in
    a value or a raised exception. *)
Definition io (A : Type) : Type := list request -> list request * result A.

Definition ret {A : Type} (a : A) : io A := fun log => (log, inr a).

Definition raise {A : Type} (e : exn) : io A := fun log => (log, inl e).

Definition bind {A B : Type} (m : io A) (k : A -> io B) : io B :=
  fun log =>
    match m log with
    | (log', inr a) => k a log'
    | (log', inl e) => (log', inl e)
    end.

Definition lift {A : Type} (r : result A) : io A := fun log => (log, r).

Definition try_except {A : Type} (body : io A) (handler : exn -> io A) : io A :=
  fun log =>
    match body log with
    | (log', inl e) => handler e log'
    | done => done
    end.

Declare Scope io_scope.
Delimit Scope io_scope with io.
Notation "x <- m ;; k" := (bind m (fun x => k))
  (at level 61, m at next level, right associativity) : io_scope.
Notation "m ;;; k" := (bind m (fun _ => k))
  (at level 61, right associativity) : io_scope.

(** What the framework sends back: the content of a returned
    [JSONResponse] with status 200, the status and detail of a raised
    [HTTPException], and 500 for any other exception. *)
Inductive reply : Type :=
  | Reply (status : Z) (body : value).

Definition status (r : reply) : Z := let 'Reply s _ := r in s.
Definition body (r : reply) : value := let 'Reply _ b := r in b.

Definition serve (r : result value) : reply :=
  match r with
  | inr content => Reply 200 content
  | inl (HTTPException status_code detail) =>
      Reply status_code (PDict [(py "detail", PStr detail)])
  | inl _ => Reply 500 (PStr (py "Internal Server Error"))
  end.

(** ** Constants of the module *)

Definition GROQ_API_URL : str :=
  py "https://api.groq.com/openai/v1/chat/completions".

(** The system prompt holds quotation marks; its text is cut at each of
    them and joined again with the mark. *)
Definition MASTER_TUTOR_PROMPT_pieces : list string :=
["You are a revolutionary AI math tutor for Syrian students that adapts like a master teacher.

🎯 CORE PRINCIPLE: ADAPTIVE INTELLIGENCE

You constantly adapt based on:
- Student's comprehension level
- Problem difficulty
- Student's language level (Arabic/English, beginner → advanced)
- Learning style (visual, verbal, story-based)
- Prior knowledge

━━━━━━━━━━━━━━━━━━━━━━━━━━━━━━━━━━━━━━━━━━━━

🇸🇾 LANGUAGE DETECTION & RESPONSE:

CRITICAL: Detect the language of the problem and respond in the SAME language!

If problem contains Arabic text → RESPOND IN SYRIAN DIALECT (اللهجة الشامية)
If problem is in English → Respond in English

SYRIAN DIALECT REQUIREMENTS when responding in Arabic:
- Use natural Syrian expressions: ";
"تعا نحل";
" (not ";
"لنحل";
")
- Use ";
"بدنا";
" (we want), ";
"منطرح";
" (we subtract), ";
"شايف؟";
" (you see?)
- Use ";
"يلا بينا";
", ";
"شو رأيك";
", ";
"هلأ";
", ";
"شوي";
", ";
"كتير";
"
- Always use English letters for variables: x, y, z (NEVER س، ص، ع)
- Use Western numerals: 1, 2, 3 (not ١، ٢، ٣)
- Encouragement: ";
"برافو!";
", ";
"يا سلام!";
", ";
"ولك روعة!";
", ";
"تمام!";
"

Example in Syrian:
";
"أهلا فيك! تعا نحل هالمسألة سوا 😊
عندنا: 2x + 5 = 13
شايف؟ بدنا نشيل ال 5 من الطرفين...
يلا بينا!";
"

━━━━━━━━━━━━━━━━━━━━━━━━━━━━━━━━━━━━━━━━━━━━

🌍 BILINGUAL TEACHING (Math Language ↔ Real World)

Simple problems: One language sufficient
Medium problems: Blend both languages  
Complex problems: Full bilingual explanation

When confused → Switch language approach
When mastering → Use advanced math language

━━━━━━━━━━━━━━━━━━━━━━━━━━━━━━━━━━━━━━━━━━━━

📚 LANGUAGE LEVELS (Adapt strategically):

LEVEL 1 - Pure Real-World: ";
"You have 5 apples, get 3 more...";
"
LEVEL 2 - Story Math: ";
"Let x be cookies. Add 5. Total is 12.";
"
LEVEL 3 - Simple Math: ";
"Solve x + 5 = 12";
"
LEVEL 4 - Standard Math: ";
"Solve using inverse operations";
"
LEVEL 5 - Advanced Math: ";
"Determine solution set preserving equivalence";
"

Choose based on problem complexity and student level.

━━━━━━━━━━━━━━━━━━━━━━━━━━━━━━━━━━━━━━━━━━━━

🎭 TEACHING MODES (Switch as needed):

STORY_MODE: Use real-world scenarios (money, pizza, backpacks)
VISUAL_MODE: Balance scales, diagrams, step-by-step visual
SOCRATIC_MODE: Guide with questions (Why? How? What if?)
STEP_BY_STEP: Clear numbered instructions
FORMAL_LECTURE: Structured comprehensive explanation
ERROR_ANALYSIS: Gentle correction with understanding

Switch modes if student struggles!

━━━━━━━━━━━━━━━━━━━━━━━━━━━━━━━━━━━━━━━━━━━━

🔄 GOLDEN RULES (Repeat with variation):

1. Balance: ";
"Whatever you do to one side, MUST do to other";
" ⚖️
2. No Zero Division: ";
"IN OTHER WORDS: Exclude values making denominator zero";
" 🚫
3. Always Verify: ";
"Substitute back to check";
" ✅
4. Order Matters: ";
"PEMDAS / Undo in reverse order";
" 🔄

Vary phrasing each time!

━━━━━━━━━━━━━━━━━━━━━━━━━━━━━━━━━━━━━━━━━━━━

🎨 CREATIVE METAPHORS (Rotate through):

Money: wallets, savings, debt
Food: pizza, apples, chocolate
School: backpacks, pencils, books
Balance: scales, seesaws
Containers: boxes, bags, jars
Temperature: above/below zero
Sports: scores, teams
Travel: distance, speed

Match to Syrian context when relevant!

━━━━━━━━━━━━━━━━━━━━━━━━━━━━━━━━━━━━━━━━━━━━

💡 RESPONSE STRUCTURE:

1. Identify problem type & difficulty
2. Choose teaching mode & language level
3. Build intuition (if needed - story/visual)
4. Solve step-by-step with WHY explanations
5. Verify answer (math + logic check)
6. Extension questions (if appropriate)

━━━━━━━━━━━━━━━━━━━━━━━━━━━━━━━━━━━━━━━━━━━━

❤️ EMOTIONAL INTELLIGENCE:

Frustrated → Encourage, simplify
Confident → Challenge, extend
Confused → Slow down, use stories
Bored → Add complexity, make interesting

Be encouraging, patient, and excited about math!

━━━━━━━━━━━━━━━━━━━━━━━━━━━━━━━━━━━━━━━━━━━━

🎯 GOAL: Not just solve problems → TEACH UNDERSTANDING
Build confidence, create mathematicians! 🚀

Respond in Arabic if problem is in Arabic, English if in English, or mix as needed."].

Definition quotation_mark : string := String (ascii_of_nat 34) EmptyString.

Definition MASTER_TUTOR_PROMPT : str :=
  Eval vm_compute in py (String.concat quotation_mark MASTER_TUTOR_PROMPT_pieces).

Definition default_model : str := py "llama-3.3-70b-versatile".

Definition newline : codepoint := 10.

Definition arabic_image_instruction : str :=
  py "حل هذه المسألة من الصورة بالتفصيل بالعربي.".

Definition default_image_instruction : str :=
  py "Solve this math problem from the image.".

Definition arabic_directive : str :=
  [newline; newline] ++ py "مهم: أجب بالكامل باللهجة الشامية السورية فقط!".

Definition english_directive : str :=
  [newline; newline]
  ++ py "Provide adaptive teaching based on the problem difficulty.".

Definition system_message : value :=
  PDict [(py "role", PStr (py "system"));
         (py "content", PStr MASTER_TUTOR_PROMPT)].

(** [{"role": "user", "content": content}] *)
Definition user_message_of (content : value) : value :=
  PDict [(py "role", PStr (py "user")); (py "content", content)].

Definition provided {A : Type} (x : option A) : bool :=
  match x with Some _ => true | None => false end.

(** ** The steps of the endpoints that send nothing *)

(** [solve_problem], the branch [if image:] with its own [try]. *)
Definition image_user_message (problem_text : option str) (image : UploadFile)
  : result value :=
  rtry
    (image_data <- read image ;;
     let base64_image := Base64.b64encode image_data in
     let mime_type := text_or (content_type image) (py "image/jpeg") in
     let is_arabic := text_and_any_arabic problem_text in
     let instruction :=
       if is_arabic then arabic_image_instruction
       else text_or problem_text default_image_instruction in
     inr (user_message_of
            (PList
               [PDict [(py "type", PStr (py "image_url"));
                       (py "image_url",
                        PDict [(py "url",
                                PStr (py "data:" ++ mime_type
                                      ++ py ";base64," ++ base64_image))])];
                PDict [(py "type", PStr (py "text"));
                       (py "text", PStr instruction)]])))%result
    (fun e =>
       inl (HTTPException 400 (py "Image processing error: " ++ str_of_exn e))).

(** [solve_problem], the branch [else:] for a problem given as text. *)
Definition text_user_message (problem_text : option str) : result value :=
  (is_arabic <- any_arabic problem_text ;;
   let instruction :=
     if is_arabic then format_text problem_text ++ arabic_directive
     else format_text problem_text ++ english_directive in
   inr (user_message_of (PStr instruction)))%result.

(** [if "choices" not in response_data or not response_data["choices"]:
    raise HTTPException(500, ...)] *)
Definition check_choices (response_data : value) : result unit :=
  (has <- py_contains (py "choices") response_data ;;
   if negb has then
     inl (HTTPException 500 (py "Invalid response from AI service"))
   else
     choices <- py_getitem response_data (py "choices") ;;
     if negb (truthy choices) then
       inl (HTTPException 500 (py "Invalid response from AI service"))
     else inr tt)%result.

(** [response_data["choices"][0]["message"]["content"]] *)
Definition first_content (response_data : value) : result value :=
  (choices <- py_getitem response_data (py "choices") ;;
   choice <- py_getitem0 choices ;;
   message <- py_getitem choice (py "message") ;;
   py_getitem message (py "content"))%result.

(** [JSONResponse(content=...)]: the response renders its content when it
    is built, with [json.dumps(..., allow_nan=False)] and then
    [.encode("utf-8")], and that raises for a content JSON cannot carry (a
    float that is infinite or no number, a string with a lone surrogate).
    [render] is what the rendering gives for a content. *)
Definition JSONResponse (render : value -> result unit) (content : value)
  : result value :=
  (render content ;;; inr content)%result.

(** [solve_problem] from the check of the response to the [JSONResponse]. *)
Definition solve_content (render : value -> result unit)
  (problem_text : option str) (image : option UploadFile)
  (response_data : value) : result value :=
  (check_choices response_data ;;;
   solution <- first_content response_data ;;
   model <- py_get response_data (py "model") (PStr default_model) ;;
   usage <- py_get response_data (py "usage") (PDict []) ;;
   JSONResponse render
     (PDict
        [(py "success", PBool true);
         (py "solution", solution);
         (py "model", model);
         (py "usage", usage);
         (py "metadata",
          PDict [(py "has_image", PBool (provided image));
                 (py "has_text", PBool (provided problem_text));
                 (py "teaching_mode", PStr (py "adaptive"))])]))%result.

(** [chat] from the check of the response to the [JSONResponse]. *)
Definition chat_content (render : value -> result unit)
  (response_data : value) : result value :=
  (check_choices response_data ;;;
   response_text <- first_content response_data ;;
   model <- py_get response_data (py "model") (PStr default_model) ;;
   JSONResponse render
     (PDict
        [(py "success", PBool true);
         (py "response", response_text);
         (py "model", model)]))%result.

(** The exception the [except] clauses that close both endpoints raise. *)
Definition endpoint_error (e : exn) : exn :=
  if is_HTTPError e then
    HTTPException 500 (py "Error calling AI service: " ++ str_of_exn e)
  else
    HTTPException 500 (py "Internal server error: " ++ str_of_exn e).

Definition endpoint_handlers {A : Type} (e : exn) : io A :=
  raise (endpoint_error e).

Section Service.

(** The API key read from the environment when the module is loaded. *)
Variable GROQ_API_KEY : str.

(** [json.loads] on the text of a form field. *)
Variable json_loads : str -> result value.

(** The network: what [client.post] gives for a request, a response or a
    raised exception (connection failure, timeout). *)
Variable post : request -> result response.

(** The rendering of the content of a [JSONResponse]. *)
Variable render : value -> result unit.

(** [chat], the block [if conversation_history:] with its own [try]:
    the message list after it. *)
Definition extend_with_history (messages : list value)
  (conversation_history : option str) : result (list value) :=
  match conversation_history with
  | Some (c :: s) =>
      rtry
        (history <- json_loads (c :: s) ;;
         items <- py_iter history ;;
         inr (messages ++ items))%result
        (fun e => if is_JSONDecodeError e then inr messages else inl e)
  | _ => inr messages
  end.

(** The request [call_groq_api] builds: headers, payload and the timeout
    of its client. *)
Definition groq_request (messages : list value) (model : str) : request :=
  let headers :=
    [(py "Authorization", py "Bearer " ++ GROQ_API_KEY);
     (py "Content-Type", py "application/json")] in
  let payload :=
    PDict [(py "model", PStr model);
           (py "messages", PList messages);
           (py "temperature", PFloat 7 (-1));
           (py "max_tokens", PInt 2000)] in
  {| url := GROQ_API_URL; headers := headers; json := payload;
     timeout := PFloat 600 (-1) |}.

(** [await client.post(...)]: the request goes out, once, and the network
    answers. *)
Definition client_post (req : request) : io response :=
  fun log => (log ++ [req], post req).

Local Open Scope io_scope.

Definition call_groq_api (messages : list value) (model : str) : io value :=
  response <- client_post (groq_request messages model) ;;
  lift (raise_for_status response) ;;;
  lift (json_result response).

(** *** POST /solve *)
Definition solve_problem (problem_text : option str) (image : option UploadFile)
  : io value :=
  try_except
    ((if negb (truthy_text problem_text) && negb (provided image) then
        raise (HTTPException 400
                 (py "Either problem_text or image must be provided"))
      else ret tt) ;;;
     let messages := [system_message] in
     user_message <-
       lift (match image with
             | Some img => image_user_message problem_text img
             | None => text_user_message problem_text
             end) ;;
     let messages := messages ++ [user_message] in
     response_data <- call_groq_api messages default_model ;;
     lift (solve_content render problem_text image response_data))
    endpoint_handlers.

(** *** POST /chat *)
Definition chat (message : str) (conversation_history : option str) : io value :=
  try_except
    (let messages := [system_message] in
     messages <- lift (extend_with_history messages conversation_history) ;;
     let messages := messages ++ [user_message_of (PStr message)] in
     response_data <- call_groq_api messages default_model ;;
     lift (chat_content render response_data))
    endpoint_handlers.

(** One request served from a fresh log: the requests that went out and
    the reply the client gets. *)
Definition handle (endpoint : io value) : list request * reply :=
  let (log, r) := endpoint [] in (log, serve r).



End Service.

(** The message list a logged request carries. *)
Definition messages_of (req : request) : value :=
  match json req with
  | PDict d => match lookup (py "messages") d with Some v => v | None => PNone end
  | _ => PNone
  end.

(** The message lists that went out while a request was served. *)
Definition outbound (served : list request * reply) : list value :=
  map messages_of (fst served).

(** [v[k]] read off a dict, [None] when there is no such entry. *)
Definition field (k : str) (v : value) : value :=
  match v with
  | PDict d => match lookup k d with Some x => x | None => PNone end
  | _ => PNone
  end.

(** What [call_groq_api] returns for an answer of the network. *)
Definition provider_result (answer : result response) : result value :=
  (response <- answer ;;
   raise_for_status response ;;;
   json_result response)%result.

(** The outcome of an endpoint body behind its [except] clauses. *)
Definition handled (r : result value) : result value :=
  match r with
  | inl e => inl (endpoint_error e)
  | inr v => inr v
  end.

(** [solve_problem] up to the user message: the check of the form fields,
    then the branch for the image or for the text. *)
Definition solve_user_message (problem_text : option str)
  (image : option UploadFile) : result value :=
  if negb (truthy_text problem_text) && negb (provided image) then
    inl (HTTPException 400 (py "Either problem_text or image must be provided"))
  else
    match image with
    | Some img => image_user_message problem_text img
    | None => text_user_message problem_text
    end.

(** The computations the service runs for its two POST routes. *)
Inductive endpoint (key : str) (loads : str -> result value)
  (post : request -> result response) (render : value -> result unit)
  : io value -> Prop :=
  | endpoint_solve (problem_text : option str) (image : option UploadFile) :
      endpoint key loads post render
        (solve_problem key post render problem_text image)
  | endpoint_chat (message : str) (conversation_history : option str) :
      endpoint key loads post render
        (chat key loads post render message conversation_history).

(** The reply for a raised [HTTPException(status_code, detail)]. *)
Definition error_reply (status_code : Z) (detail : str) : reply :=
  Reply status_code (PDict [(py "detail", PStr detail)]).

(** A provider response whose list of choices is missing or empty. *)
Definition no_choices (response_data : value) : Prop :=
  exists d, response_data = PDict d
            /\ (lookup (py "choices") d = None
                \/ lookup (py "choices") d = Some (PList [])).

(** A provider response with a first choice whose message has the content
    [text]. *)
Definition first_choice_content (response_data : value) (text : value) : Prop :=
  exists d c cs message,
    response_data = PDict d
    /\ lookup (py "choices") d = Some (PList (c :: cs))
    /\ py_getitem c (py "message") = inr message
    /\ py_getitem message (py "content") = inr text.

(** The entry of a dict, or a default. *)
Definition entry_or (k : str) (response_data : value) (default : value) : value :=
  match response_data with
  | PDict d => match lookup k d with Some x => x | None => default end
  | _ => default
  end.

(** ** An environment to run the endpoints in

    A fixed key, a reader of JSON texts without escapes or fractions, and
    providers that answer with a fixed response, or not at all. *)
Module Demo.

Definition key : str := py "gsk_demo".

Definition is_space (c : codepoint) : bool :=
  (c =? 32) || (c =? 9) || (c =? 10) || (c =? 13).

Fixpoint skip_space (s : str) : str :=
  match s with
  | c :: rest => if is_space c then skip_space rest else s
  | [] => []
  end.

(** The characters of a string up to its closing mark; a backslash or a
    control character ends the reading. *)
Fixpoint read_string (s : str) : option (str * str) :=
  match s with
  | [] => None
  | c :: rest =>
      if c =? 34 then Some ([], rest)
      else if (c =? 92) || (c <? 32) then None
      else match read_string rest with
           | Some (t, rest') => Some (c :: t, rest')
           | None => None
           end
  end.

Definition is_digit (c : codepoint) : bool := (48 <=? c) && (c <=? 57).

Fixpoint read_digits (acc : Z) (s : str) : Z * str :=
  match s with
  | c :: rest =>
      if is_digit c then read_digits (10 * acc + (c - 48)) rest else (acc, s)
  | [] => (acc, [])
  end.

Fixpoint read_value (fuel : nat) (s : str) : option (value * str) :=
  match fuel with
  | O => None
  | S fuel' =>
      match skip_space s with
      | 110 :: 117 :: 108 :: 108 :: rest => Some (PNone, rest)
      | 116 :: 114 :: 117 :: 101 :: rest => Some (PBool true, rest)
      | 102 :: 97 :: 108 :: 115 :: 101 :: rest => Some (PBool false, rest)
      | 34 :: rest =>
          match read_string rest with
          | Some (t, rest') => Some (PStr t, rest')
          | None => None
          end
      | 45 :: c :: rest =>
          if is_digit c then
            let (n, rest') := read_digits 0 (c :: rest) in Some (PInt (- n), rest')
          else None
      | 91 :: rest =>
          match skip_space rest with
          | 93 :: rest' => Some (PList [], rest')
          | _ =>
              match read_items fuel' rest with
              | Some (items, rest') => Some (PList items, rest')
              | None => None
              end
          end
      | 123 :: rest =>
          match skip_space rest with
          | 125 :: rest' => Some (PDict [], rest')
          | _ =>
              match read_members fuel' rest with
              | Some (entries, rest') => Some (PDict entries, rest')
              | None => None
              end
          end
      | c :: rest =>
          if is_digit c then
            let (n, rest') := read_digits 0 (c :: rest) in Some (PInt n, rest')
          else None
      | [] => None
      end
  end
with read_items (fuel : nat) (s : str) : option (list value * str) :=
  match fuel with
  | O => None
  | S fuel' =>
      match read_value fuel' s with
      | Some (v, rest) =>
          match skip_space rest with
          | 93 :: rest' => Some ([v], rest')
          | 44 :: rest' =>
              match read_items fuel' rest' with
              | Some (vs, rest'') => Some (v :: vs, rest'')
              | None => None
              end
          | _ => None
          end
      | None => None
      end
  end
with read_members (fuel : nat) (s : str) : option (list (str * value) * str) :=
  match fuel with
  | O => None
  | S fuel' =>
      match skip_space s with
      | 34 :: rest =>
          match read_string rest with
          | Some (k, rest1) =>
              match skip_space rest1 with
              | 58 :: rest2 =>
                  match read_value fuel' rest2 with
                  | Some (v, rest3) =>
                      match skip_space rest3 with
                      | 125 :: rest4 => Some ([(k, v)], rest4)
                      | 44 :: rest4 =>
                          match read_members fuel' rest4 with
                          | Some (kvs, rest5) => Some ((k, v) :: kvs, rest5)
                          | None => None
                          end
                      | _ => None
                      end
                  | None => None
                  end
              | _ => None
              end
          | None => None
          end
      | _ => None
      end
  end.

Definition loads (s : str) : result value :=
  match read_value (S (S (List.length s))) s with
  | Some (v, rest) =>
      match skip_space rest with
      | [] => inr v
      | _ => inl (JSONDecodeError (py "Extra data"))
      end
  | None => inl (JSONDecodeError (py "Expecting value"))
  end.

(** A string literal of a JSON text. *)
Definition q (s : string) : str := [34] ++ py s ++ [34].

Definition completion_text : str :=
  py "{" ++ q "choices" ++ py ": [{" ++ q "message" ++ py ": {"
  ++ q "role" ++ py ": " ++ q "assistant" ++ py ", "
  ++ q "content" ++ py ": " ++ q "x = 4" ++ py "}}], "
  ++ q "model" ++ py ": " ++ q "llama-3.3-70b-versatile" ++ py "}".

Definition no_choices_text : str :=
  py "{" ++ q "choices" ++ py ": [], " ++ q "model" ++ py ": "
  ++ q "llama-3.3-70b-versatile" ++ py "}".

Definition answers (code : Z) (text : str) : request -> result response :=
  fun _ => inr {| status_code := code; reason := py "status " ++ decimal code;
                  json_result := loads text |}.

Definition provider : request -> result response := answers 200 completion_text.

Definition provider_without_choices : request -> result response :=
  answers 200 no_choices_text.

Definition provider_unavailable : request -> result response :=
  answers 503 (py "{}").

Definition network_down : request -> result response :=
  fun _ => inl (HTTPError (py "All connection attempts failed")).

Definition history_text : str :=
  py "[{" ++ q "role" ++ py ": " ++ q "user" ++ py ", " ++ q "content"
  ++ py ": " ++ q "2x+5=13" ++ py "}, {" ++ q "role" ++ py ": "
  ++ q "assistant" ++ py ", " ++ q "content" ++ py ": " ++ q "x = 4" ++ py "}]".

Definition history : list value :=
  [PDict [(py "role", PStr (py "user")); (py "content", PStr (py "2x+5=13"))];
   PDict [(py "role", PStr (py "assistant")); (py "content", PStr (py "x = 4"))]].

Definition completion : value :=
  PDict [(py "choices",
          PList [PDict [(py "message",
                         PDict [(py "role", PStr (py "assistant"));
                                (py "content", PStr (py "x = 4"))])]]);
         (py "model", PStr default_model)].

Definition empty_completion : value :=
  PDict [(py "choices", PList []); (py "model", PStr default_model)].

Definition question : str := py "2x+5=13".

Definition arabic_question : str := py "حل 2x+5=13".

Definition sent (messages : list value) : request :=
  groq_request key messages default_model.

Definition photo_bytes : list byte := [x89; x50; x4e; x47]%byte.

Definition photo : UploadFile :=
  {| content_type := Some (py "image/png");
     read := inr photo_bytes |}.

Definition unreadable_photo : UploadFile :=
  {| content_type := None; read := inl (OtherException (py "closed file")) |}.

(** The rendering of a content: [json.dumps] refuses a float whose
    literal is beyond the doubles (it reads as infinity), and the encoding
    to UTF-8 then refuses a string, or a key, with a surrogate. The texts
    of the two errors are abridged. *)
Definition float_limit : Z := 2 ^ 1024 - 2 ^ 970.

Definition out_of_range (m e : Z) : bool :=
  if 0 <=? e then float_limit <=? Z.abs m * 10 ^ e
  else float_limit * 10 ^ (- e) <=? Z.abs m.

Fixpoint has_infinite_float (v : value) : bool :=
  match v with
  | PFloat m e => out_of_range m e
  | PList l => existsb has_infinite_float l
  | PDict d => existsb (fun kv => let '(_, x) := kv in has_infinite_float x) d
  | _ => false
  end.

Definition is_surrogate (c : codepoint) : bool := (55296 <=? c) && (c <=? 57343).

Fixpoint has_surrogate (v : value) : bool :=
  match v with
  | PStr s => existsb is_surrogate s
  | PList l => existsb has_surrogate l
  | PDict d =>
      existsb (fun kv => let '(k, x) := kv in
                         existsb is_surrogate k || has_surrogate x) d
  | _ => false
  end.

Definition render (content : value) : result unit :=
  if has_infinite_float content then
    inl (OtherException (py "Out of range float values are not JSON compliant"))
  else if has_surrogate content then
    inl (OtherException (py "'utf-8' codec can't encode character: surrogates not allowed"))
  else inr tt.

(** A completion whose text is one half of a surrogate pair, as the JSON
    escape of that half alone decodes. *)
Definition lone_surrogate : str := [55357].

Definition surrogate_completion : value :=
  PDict [(py "choices",
          PList [PDict [(py "message",
                         PDict [(py "role", PStr (py "assistant"));
                                (py "content", PStr lone_surrogate)])]]);
         (py "model", PStr default_model)].

Definition provider_with_surrogate : request -> result response :=
  fun _ => inr {| status_code := 200; reason := py "status 200";
                  json_result := inr surrogate_completion |}.

(** A text of [n] opening brackets, and a reader that, like the decoder of
    the interpreter, gives up with a [RecursionError] on a text that opens
    more than [limit] arrays in a row. *)
Definition deep (n : N) : str := N.iter n (cons 91) [].

Fixpoint leading_brackets (s : str) : Z :=
  match s with
  | c :: rest =>
      if c =? 91 then 1 + leading_brackets rest
      else if is_space c then leading_brackets rest
      else 0
  | [] => 0
  end.

Definition loads_within (limit : Z) (s : str) : result value :=
  if limit <? leading_brackets s then
    inl (OtherException
           (py "maximum recursion depth exceeded while decoding a JSON array from a unicode string"))
  else loads s.

End Demo.

(** ** Start-up and the two GET routes *)

(** The module reads the key with [os.getenv] and refuses to load without
    one: [if not GROQ_API_KEY: raise ValueError(...)]. The [ValueError] is
    one of the exceptions no clause of the service tells apart. *)
Definition load_api_key (getenv : option str) : result str :=
  match getenv with
  | Some (c :: s) => inr (c :: s)
  | _ => inl (OtherException (py "GROQ_API_KEY environment variable is required"))
  end.

(** GET / *)
Definition root : value :=
  PDict [(py "status", PStr (py "online"));
         (py "service", PStr (py "Syrian Math Tutor API"));
         (py "version", PStr (py "3.0"));
         (py "features",
          PList [PStr (py "Adaptive teaching (5 language levels)");
                 PStr (py "Bilingual (Math ↔ Real World)");
                 PStr (py "Multiple teaching modes");
                 PStr (py "Creative explanations");
                 PStr (py "Emotional intelligence");
                 PStr (py "Syrian curriculum aligned")])].

(** GET /health, for the key the module holds. *)
Definition health (GROQ_API_KEY : str) : value :=
  PDict [(py "status", PStr (py "healthy"));
         (py "api_key_configured", PBool (truthy (PStr GROQ_API_KEY)));
         (py "groq_api_url", PStr GROQ_API_URL)].

(** The content of a successful reply of [/solve] and of [/chat] for the
    response [r] of the provider and the text [text] of its first choice. *)
Definition solve_success (problem_text : option str) (image : option UploadFile)
  (r text : value) : value :=
  PDict [(py "success", PBool true);
         (py "solution", text);
         (py "model", entry_or (py "model") r (PStr default_model));
         (py "usage", entry_or (py "usage") r (PDict []));
         (py "metadata",
          PDict [(py "has_image", PBool (provided image));
                 (py "has_text", PBool (provided problem_text));
                 (py "teaching_mode", PStr (py "adaptive"))])].

Definition chat_success (r text : value) : value :=
  PDict [(py "success", PBool true);
         (py "response", text);
         (py "model", entry_or (py "model") r (PStr default_model))].

(** The value of a header of a request, the empty text when it has none. *)
Fixpoint header (name : str) (hs : list (str * str)) : str :=
  match hs with
  | [] => []
  | (n, v) :: rest => if str_eqb name n then v else header name rest
  end.

(** ** The first version of the service, [main (1).py]

    One POST route over the client of the provider's SDK, with a prompt of
    its own and no history. *)
Module Main1.

Definition SYSTEM_PROMPT : str :=
  Eval vm_compute in py "أنت أستاذ عمر، معلم رياضيات سوري صبور وذكي للصف الثاني عشر العلمي.

شخصيتك:
- صبور جداً مع الطلاب
- تشرح خطوة خطوة بوضوح
- تستخدم أمثلة من الحياة اليومية
- لا تستخدم كلمات: صعب، معقد، مستحيل
- دائماً تشجع وتحفز الطلاب

منهجك:
1. افهم السؤال جيداً
2. اشرح المفهوم ببساطة
3. أعطي مثال واضح
4. تدرب الطالب
5. تأكد من الفهم

استخدم LaTeX للمعادلات: $equation$ أو $$equation$$".

(** [ChatRequest]: the message and a session name, [default] when the
    body has none. *)
Record ChatRequest : Type := {
  message : str;
  session_id : str
}.

(** The keyword arguments of [chat.completions.create]. *)
Record create_args : Type := {
  model : str;
  messages : list value;
  max_tokens : Z;
  temperature : value
}.

(** What the SDK returns: the choices, each with the content of its
    message, which may be [None]. *)
Record ChatCompletionMessage : Type := { content : option str }.
Record Choice : Type := { choice_message : ChatCompletionMessage }.
Record ChatCompletion : Type := { choices : list Choice }.

(** [l[0]] on a list. *)
Definition first {A : Type} (l : list A) : result A :=
  match l with
  | x :: _ => inr x
  | [] => inl (IndexError (py "list index out of range"))
  end.

Section Service.

(** The client: what [create] returns or raises for its arguments. *)
Variable create : create_args -> result ChatCompletion.

(** The exception the model class raises for a response that is no string. *)
Variable validation_error : exn.

(** [ChatResponse(response=...)], as the route serialises it. *)
Definition ChatResponse (response : option str) : result value :=
  match response with
  | Some s => inr (PDict [(py "response", PStr s)])
  | None => inl validation_error
  end.

(** The arguments [chat] calls [create] with. *)
Definition chat_args (request : ChatRequest) : create_args :=
  {| model := py "llama-3.1-70b-versatile";
     messages := [PDict [(py "role", PStr (py "system"));
                         (py "content", PStr SYSTEM_PROMPT)];
                  PDict [(py "role", PStr (py "user"));
                         (py "content", PStr (message request))]];
     max_tokens := 2000;
     temperature := PFloat 7 (-1) |}.

(** POST /chat *)
Definition chat (request : ChatRequest) : result value :=
  rtry
    (response <- create (chat_args request) ;;
     choice <- first (choices response) ;;
     ChatResponse (content (choice_message choice)))%result
    (fun e => inl (HTTPException 500 (str_of_exn e))).

End Service.

(** What the framework sends back for this route: it renders the returned
    model after the handler, outside its [try], so a content that cannot
    be rendered ends in the plain 500 of the server. *)
Definition respond (render : value -> result unit) (r : result value) : reply :=
  match r with
  | inr content =>
      match render content with
      | inr _ => Reply 200 content
      | inl _ => Reply 500 (PStr (py "Internal Server Error"))
      end
  | inl e => serve (inl e)
  end.

End Main1.

(** * Properties *)

(** ** The text and encoding helpers on examples *)

Example b64encode_Man :
  Base64.b64encode [x4d; x61; x6e; x4d; x61]%byte = py "TWFuTWE=".
Proof. reflexivity. Qed.

Example decode_arabic_letter : py "ح" = [1581].
Proof. reflexivity. Qed.

Example decimal_400 : decimal 400 = py "400".
Proof. reflexivity. Qed.

Example quoted_key : quoted (py "choices") = [39; 99; 104; 111; 105; 99; 101; 115; 39].
Proof. reflexivity. Qed.

Lemma str_eqb_eq (a b : str) : str_eqb a b = true <-> a = b.
Proof.
  revert b; induction a as [|x a IH]; intros [|y b]; simpl; try easy.
  rewrite andb_true_iff, Z.eqb_eq, IH.
  split; [intros [-> ->]; reflexivity | intros [= -> ->]; auto].
Qed.

Lemma existsb_arabic_true (s : str) :
  existsb in_arabic_block s = true <-> exists c, In c s /\ 1536 <= c <= 1791.
Proof.
  rewrite existsb_exists. unfold in_arabic_block.
  split; intros (c & Hin & Hc); exists c; split; auto.
  - apply andb_true_iff in Hc. lia.
  - apply andb_true_iff. lia.
Qed.

Lemma existsb_arabic_ascii (s : str) :
  Forall (fun c => 0 <= c <= 127) s -> existsb in_arabic_block s = false.
Proof.
  induction 1 as [|c s Hc _ IH]; simpl; [reflexivity|].
  rewrite IH, orb_false_r. unfold in_arabic_block.
  apply andb_false_iff. left. lia.
Qed.

(** ** What an endpoint does, step by step *)

Section Runs.

Variable key : str.
Variable loads : str -> result value.
Variable post : request -> result response.
Variable render : value -> result unit.

Lemma call_groq_api_run (messages : list value) (model : str) (log : list request) :
  call_groq_api key post messages model log =
  (log ++ [groq_request key messages model],
   provider_result (post (groq_request key messages model))).
Proof.
  unfold call_groq_api, bind, client_post, lift, provider_result, rbind.
  destruct (post _) as [e|resp]; [reflexivity|].
  destruct (raise_for_status resp); reflexivity.
Qed.

Lemma solve_problem_run (problem_text : option str) (image : option UploadFile)
  (log : list request) :
  solve_problem key post render problem_text image log =
  if negb (truthy_text problem_text) && negb (provided image) then
    (log, inl (endpoint_error
                 (HTTPException 400
                    (py "Either problem_text or image must be provided"))))
  else
    match match image with
          | Some img => image_user_message problem_text img
          | None => text_user_message problem_text
          end with
    | inl e => (log, inl (endpoint_error e))
    | inr user_message =>
        let req := groq_request key [system_message; user_message] default_model in
        (log ++ [req],
         handled (rbind (provider_result (post req))
                        (solve_content render problem_text image)))
    end.
Proof.
  unfold solve_problem, try_except.
  unfold bind at 1.
  destruct (negb (truthy_text problem_text) && negb (provided image));
    [reflexivity|].
  cbv beta iota delta [ret]. unfold bind at 1. unfold lift at 1.
  destruct (match image with Some _ => _ | None => _ end) as [e|um];
    [reflexivity|].
  unfold bind. rewrite call_groq_api_run. cbn [app]. unfold lift, rbind, handled.
  destruct (provider_result _) as [e|r]; [reflexivity|].
  destruct (solve_content _ _ _ r); reflexivity.
Qed.

Lemma chat_run (message : str) (conversation_history : option str)
  (log : list request) :
  chat key loads post render message conversation_history log =
  match extend_with_history loads [system_message] conversation_history with
  | inl e => (log, inl (endpoint_error e))
  | inr messages =>
      let req := groq_request key (messages ++ [user_message_of (PStr message)])
                   default_model in
      (log ++ [req],
       handled (rbind (provider_result (post req)) (chat_content render)))
  end.
Proof.
  unfold chat, try_except.
  unfold bind at 1. unfold lift at 1.
  destruct (extend_with_history _ _ _) as [e|messages]; [reflexivity|].
  unfold bind. rewrite call_groq_api_run. unfold lift, rbind, handled.
  destruct (provider_result _) as [e|r]; [reflexivity|].
  destruct (chat_content render r); reflexivity.
Qed.

End Runs.

(** ** The replies and the requests of the two endpoints *)

Lemma endpoint_error_500 (e : exn) :
  exists detail, endpoint_error e = HTTPException 500 detail.
Proof. unfold endpoint_error. destruct (is_HTTPError e); eauto. Qed.

Lemma status_endpoint_error (e : exn) :
  status (serve (inl (endpoint_error e))) = 500.
Proof. destruct (endpoint_error_500 e) as [d ->]. reflexivity. Qed.

Lemma status_handled (r : result value) :
  status (serve (handled r)) = 200 \/ status (serve (handled r)) = 500.
Proof.
  destruct r as [e|v]; simpl; [right; apply status_endpoint_error | left; reflexivity].
Qed.

Lemma messages_of_groq_request (key : str) (messages : list value) (model : str) :
  messages_of (groq_request key messages model) = PList messages.
Proof. reflexivity. Qed.

Section Handling.

Variable key : str.
Variable loads : str -> result value.
Variable post : request -> result response.
Variable render : value -> result unit.

Lemma handle_solve (problem_text : option str) (image : option UploadFile) :
  handle (solve_problem key post render problem_text image) =
  match solve_user_message problem_text image with
  | inl e => ([], serve (inl (endpoint_error e)))
  | inr user_message =>
      let req := groq_request key [system_message; user_message] default_model in
      ([req],
       serve (handled (rbind (provider_result (post req))
                             (solve_content render problem_text image))))
  end.
Proof.
  unfold handle, solve_user_message. rewrite solve_problem_run.
  destruct (negb (truthy_text problem_text) && negb (provided image));
    [reflexivity|].
  destruct (match image with Some _ => _ | None => _ end); reflexivity.
Qed.

Lemma handle_chat (message : str) (conversation_history : option str) :
  handle (chat key loads post render message conversation_history) =
  match extend_with_history loads [system_message] conversation_history with
  | inl e => ([], serve (inl (endpoint_error e)))
  | inr messages =>
      let req := groq_request key (messages ++ [user_message_of (PStr message)])
                   default_model in
      ([req], serve (handled (rbind (provider_result (post req)) (chat_content render))))
  end.
Proof.
  unfold handle. rewrite chat_run.
  destruct (extend_with_history _ _ _); reflexivity.
Qed.

(** The history block only ever appends to the list it is given. *)
Lemma extend_with_history_prefix (messages : list value) (h : option str)
  (messages' : list value) :
  extend_with_history loads messages h = inr messages' ->
  exists items, messages' = messages ++ items.
Proof.
  unfold extend_with_history, rtry, rbind.
  destruct h as [[|c s]|]; try (intros [= <-]; exists []; symmetry; apply app_nil_r).
  destruct (loads (c :: s)) as [e|v].
  - destruct (is_JSONDecodeError e); [|discriminate].
    intros [= <-]. exists []. symmetry; apply app_nil_r.
  - destruct (py_iter v) as [e|items].
    + destruct (is_JSONDecodeError e) eqn:He; [|discriminate].
      intros [= <-]. exists []. symmetry; apply app_nil_r.
    + intros [= <-]. exists items. reflexivity.
Qed.

Lemma text_user_message_some (c : codepoint) (s : str) :
  text_user_message (Some (c :: s)) =
  inr (user_message_of
         (PStr ((c :: s) ++ if existsb in_arabic_block (c :: s)
                            then arabic_directive else english_directive))).
Proof.
  unfold text_user_message, any_arabic, rbind, format_text.
  destruct (existsb in_arabic_block (c :: s)); reflexivity.
Qed.

End Handling.

(** ** C1: what the user message carries *)

(** C1, as stated, fails: for [POST /chat] with the message [2x+5=13] and
    no history, the message list that goes out does not end in the text
    with the English directive appended. *)
Lemma chat_appends_no_directive :
  outbound (handle (chat Demo.key Demo.loads Demo.provider Demo.render (py "2x+5=13") None))
  <> [PList [system_message;
             user_message_of (PStr (py "2x+5=13" ++ english_directive))]].
Proof.
  rewrite handle_chat. cbn [extend_with_history outbound fst map].
  rewrite messages_of_groq_request.
  intros H. injection H as H.
  apply (f_equal (@List.length codepoint)) in H.
  vm_compute in H. discriminate H.
Qed.

(** C1, amended: [/chat] forwards the caller's text unchanged as the last
    message (after the system prompt when there is no history); the
    directive that depends on the language is appended by [/solve] for a
    problem given as text only: the Arabic one when the text has a
    codepoint of the Arabic block, the English one otherwise. *)
Theorem chat_forwards_text_solve_appends_directive
  (key : str) (loads : str -> result value) (post : request -> result response)
  (render : value -> result unit) :
  (forall message,
     outbound (handle (chat key loads post render message None))
     = [PList [system_message; user_message_of (PStr message)]])
  /\ (forall message history,
        outbound (handle (chat key loads post render message history)) = []
        \/ exists items,
             outbound (handle (chat key loads post render message history))
             = [PList (system_message :: items
                       ++ [user_message_of (PStr message)])])
  /\ (forall c s,
        outbound (handle (solve_problem key post render (Some (c :: s)) None))
        = [PList [system_message;
                  user_message_of
                    (PStr ((c :: s)
                           ++ if existsb in_arabic_block (c :: s)
                              then arabic_directive
                              else english_directive))]]).
Proof.
  split; [|split].
  - intros message. rewrite handle_chat. reflexivity.
  - intros message history. rewrite handle_chat.
    destruct (extend_with_history loads [system_message] history)
      as [e|messages] eqn:E; [left; reflexivity|right].
    destruct (extend_with_history_prefix _ _ _ _ E) as [items ->].
    exists items. reflexivity.
  - intros c s. rewrite handle_solve.
    unfold solve_user_message. cbn [truthy_text negb andb provided].
    rewrite text_user_message_some. reflexivity.
Qed.

(** ** C2: a request with neither text nor image *)

(** C2 at its failing input: with neither form field, [/solve] raises the
    400 inside its own [try], the clause [except Exception] catches it,
    and the reply is a 500 whose detail quotes the 400. Nothing is sent. *)
Theorem solve_without_input_replies_500
  (key : str) (post : request -> result response)
  (render : value -> result unit) :
  handle (solve_problem key post render None None)
  = ([], error_reply 500
           (py "Internal server error: 400: Either problem_text or image must be provided")).
Proof. rewrite handle_solve. vm_compute. reflexivity. Qed.

(** ** C3: the check of the provider response *)

Lemma check_choices_none (r : value) :
  no_choices r ->
  check_choices r = inl (HTTPException 500 (py "Invalid response from AI service")).
Proof.
  intros (d & -> & [H|H]); unfold check_choices, py_contains, py_getitem, rbind;
    rewrite H; reflexivity.
Qed.

Lemma check_choices_first (r text : value) :
  first_choice_content r text -> check_choices r = inr tt.
Proof.
  intros (d & c & cs & message & -> & H & _).
  unfold check_choices, py_contains, py_getitem, rbind. rewrite H. reflexivity.
Qed.

Lemma first_content_first (r text : value) :
  first_choice_content r text -> first_content r = inr text.
Proof.
  intros (d & c & cs & message & -> & H & Hm & Hc).
  unfold first_content, rbind. cbn [py_getitem]. rewrite H.
  cbn [py_getitem0]. rewrite Hm. exact Hc.
Qed.

Lemma first_choice_is_dict (r text : value) :
  first_choice_content r text -> exists d, r = PDict d.
Proof. intros (d & _ & _ & _ & -> & _). eauto. Qed.

Lemma solve_content_first (render : value -> result unit)
  (problem_text : option str) (image : option UploadFile) (r text : value) :
  first_choice_content r text ->
  solve_content render problem_text image r =
  JSONResponse render
    (PDict
       [(py "success", PBool true);
        (py "solution", text);
        (py "model", entry_or (py "model") r (PStr default_model));
        (py "usage", entry_or (py "usage") r (PDict []));
        (py "metadata",
         PDict [(py "has_image", PBool (provided image));
                (py "has_text", PBool (provided problem_text));
                (py "teaching_mode", PStr (py "adaptive"))])]).
Proof.
  intros H. unfold solve_content.
  rewrite (check_choices_first _ _ H), (first_content_first _ _ H).
  destruct (first_choice_is_dict _ _ H) as [d ->]. reflexivity.
Qed.

Lemma chat_content_first (render : value -> result unit) (r text : value) :
  first_choice_content r text ->
  chat_content render r =
  JSONResponse render
    (PDict
       [(py "success", PBool true);
        (py "response", text);
        (py "model", entry_or (py "model") r (PStr default_model))]).
Proof.
  intros H. unfold chat_content.
  rewrite (check_choices_first _ _ H), (first_content_first _ _ H).
  destruct (first_choice_is_dict _ _ H) as [d ->]. reflexivity.
Qed.

Lemma invalid_response_reply :
  serve (handled (inl (HTTPException 500 (py "Invalid response from AI service"))))
  = error_reply 500
      (py "Internal server error: 500: Invalid response from AI service").
Proof. vm_compute. reflexivity. Qed.

(** The one request an endpoint sent, and what came back for it. *)
Lemma handle_sent (key : str) (loads : str -> result value)
  (post : request -> result response)
  (render : value -> result unit) (ep : io value) (req : request) :
  endpoint key loads post render ep ->
  fst (handle ep) = [req] ->
  exists content : value -> result value,
    snd (handle ep) = serve (handled (rbind (provider_result (post req)) content))
    /\ ((exists problem_text image,
           ep = solve_problem key post render problem_text image
           /\ content = solve_content render problem_text image)
        \/ (exists message history,
              ep = chat key loads post render message history
              /\ content = chat_content render)).
Proof.
  intros [problem_text image|message history].
  - rewrite handle_solve.
    destruct (solve_user_message problem_text image) as [e|um];
      [discriminate|].
    cbn [fst snd]. intros [= <-].
    exists (solve_content render problem_text image). split; [reflexivity|].
    left. eauto.
  - rewrite handle_chat.
    destruct (extend_with_history loads [system_message] history) as [e|ms];
      [discriminate|].
    cbn [fst snd]. intros [= <-].
    exists (chat_content render). split; [reflexivity|]. right. eauto.
Qed.

Lemma JSONResponse_rendered (render : value -> result unit) (content : value) :
  render content = inr tt -> JSONResponse render content = inr content.
Proof. intros H. unfold JSONResponse. rewrite H. reflexivity. Qed.

Lemma JSONResponse_refused (render : value -> result unit) (content : value)
  (e : exn) :
  render content = inl e -> JSONResponse render content = inl e.
Proof. intros H. unfold JSONResponse. rewrite H. reflexivity. Qed.

(** C3, as stated, fails: a response whose first choice has a message
    content, here a text that is one half of a surrogate pair, does not
    come back as the result text. The reply cannot be rendered, the
    [JSONResponse] raises inside the [try], and both routes reply 500. *)
Lemma unencodable_content_replies_500 :
  first_choice_content Demo.surrogate_completion (PStr Demo.lone_surrogate)
  /\ status (snd (handle (chat Demo.key Demo.loads Demo.provider_with_surrogate
                            Demo.render Demo.question None))) = 500
  /\ status (snd (handle (solve_problem Demo.key Demo.provider_with_surrogate
                            Demo.render (Some Demo.question) None))) = 500.
Proof.
  split; [|split; vm_compute; reflexivity].
  exists [(py "choices",
           PList [PDict [(py "message",
                          PDict [(py "role", PStr (py "assistant"));
                                 (py "content", PStr Demo.lone_surrogate)])]]);
          (py "model", PStr default_model)].
  exists (PDict [(py "message",
                  PDict [(py "role", PStr (py "assistant"));
                         (py "content", PStr Demo.lone_surrogate)])]).
  exists [].
  exists (PDict [(py "role", PStr (py "assistant"));
                 (py "content", PStr Demo.lone_surrogate)]).
  repeat split; reflexivity.
Qed.

(** C3, amended: when the response the provider gave for the request has
    no list of choices, or an empty one, either endpoint replies with
    status 500 (the detail names the invalid response). When it has a
    first choice with a message content and the reply built from it can be
    rendered, [/solve] replies 200 with that content as the solution, the
    model and usage of the response, and an empty mapping for a usage
    block that is absent, and [/chat] replies 200 with that content as the
    response. When the reply cannot be rendered, the endpoint replies 500.
    Every run ends in a reply. *)
Theorem choices_decide_the_reply
  (key : str) (loads : str -> result value) (post : request -> result response)
  (render : value -> result unit) :
  (forall ep req r,
     endpoint key loads post render ep ->
     fst (handle ep) = [req] ->
     provider_result (post req) = inr r ->
     no_choices r ->
     snd (handle ep)
     = error_reply 500
         (py "Internal server error: 500: Invalid response from AI service")
     /\ status (snd (handle ep)) = 500)
  /\ (forall problem_text image req r text,
        fst (handle (solve_problem key post render problem_text image)) = [req] ->
        provider_result (post req) = inr r ->
        first_choice_content r text ->
        (render (solve_success problem_text image r text) = inr tt ->
         snd (handle (solve_problem key post render problem_text image))
         = Reply 200
             (PDict
                [(py "success", PBool true);
                 (py "solution", text);
                 (py "model", entry_or (py "model") r (PStr default_model));
                 (py "usage", entry_or (py "usage") r (PDict []));
                 (py "metadata",
                  PDict [(py "has_image", PBool (provided image));
                         (py "has_text", PBool (provided problem_text));
                         (py "teaching_mode", PStr (py "adaptive"))])]))
        /\ (forall d, r = PDict d -> lookup (py "usage") d = None ->
            entry_or (py "usage") r (PDict []) = PDict [])
        /\ (forall e,
              render (solve_success problem_text image r text) = inl e ->
              snd (handle (solve_problem key post render problem_text image))
              = serve (inl (endpoint_error e))
              /\ status (snd (handle (solve_problem key post render
                                        problem_text image))) = 500))
  /\ (forall message history req r text,
        fst (handle (chat key loads post render message history)) = [req] ->
        provider_result (post req) = inr r ->
        first_choice_content r text ->
        (render (chat_success r text) = inr tt ->
         snd (handle (chat key loads post render message history))
         = Reply 200
             (PDict
                [(py "success", PBool true);
                 (py "response", text);
                 (py "model", entry_or (py "model") r (PStr default_model))]))
        /\ (forall e,
              render (chat_success r text) = inl e ->
              snd (handle (chat key loads post render message history))
              = serve (inl (endpoint_error e))
              /\ status (snd (handle (chat key loads post render
                                        message history))) = 500)).
Proof.
  split; [|split].
  - intros ep req r Hep Hreq Hr Hno.
    destruct (handle_sent _ _ _ _ _ _ Hep Hreq) as (content & -> & Hc).
    rewrite Hr. unfold rbind.
    assert (content r
            = inl (HTTPException 500 (py "Invalid response from AI service")))
      as ->.
    { destruct Hc as [(pt & img & _ & ->)|(m & h & _ & ->)].
      - unfold solve_content. rewrite (check_choices_none _ Hno). reflexivity.
      - unfold chat_content. rewrite (check_choices_none _ Hno). reflexivity. }
    rewrite invalid_response_reply. split; reflexivity.
  - intros problem_text image req r text Hreq Hr Hfirst.
    revert Hreq. rewrite handle_solve.
    destruct (solve_user_message problem_text image) as [e|um];
      [discriminate|].
    cbn [fst snd]. intros [= <-]. rewrite Hr. unfold rbind.
    rewrite (solve_content_first _ _ _ _ _ Hfirst).
    fold (solve_success problem_text image r text).
    split; [|split].
    + intros Hren. rewrite (JSONResponse_rendered _ _ Hren). reflexivity.
    + intros d -> Hu. unfold entry_or. rewrite Hu. reflexivity.
    + intros e Hren. rewrite (JSONResponse_refused _ _ _ Hren).
      split; [reflexivity|apply status_endpoint_error].
  - intros message history req r text Hreq Hr Hfirst.
    revert Hreq. rewrite handle_chat.
    destruct (extend_with_history loads [system_message] history) as [e|ms];
      [discriminate|].
    cbn [fst snd]. intros [= <-]. rewrite Hr. unfold rbind.
    rewrite (chat_content_first _ _ _ Hfirst).
    fold (chat_success r text).
    split.
    + intros Hren. rewrite (JSONResponse_rendered _ _ Hren). reflexivity.
    + intros e Hren. rewrite (JSONResponse_refused _ _ _ Hren).
      split; [reflexivity|apply status_endpoint_error].
Qed.

(** ** C4: the language detector *)

Lemma text_and_any_arabic_some (s : str) :
  text_and_any_arabic (Some s) = existsb in_arabic_block s.
Proof. destruct s; reflexivity. Qed.

(** C4: the detector answers true on every text with a codepoint of the
    Arabic block (U+0600 to U+06FF, 1536 to 1791) and false on every ASCII
    text, at both places [solve_problem] runs it; on an empty text it
    answers false, and so does the guarded form used beside an image on an
    absent text. The unguarded form of the text branch returns a boolean
    on every text that passed the check of the form fields, and a request
    with an absent or empty text and no image never reaches it: the reply
    is the one of that check. *)
Theorem language_detector_answers :
  (forall s,
     (exists c, In c s /\ 1536 <= c <= 1791) ->
     any_arabic (Some s) = inr true /\ text_and_any_arabic (Some s) = true)
  /\ (forall s,
        Forall (fun c => 0 <= c <= 127) s ->
        any_arabic (Some s) = inr false /\ text_and_any_arabic (Some s) = false)
  /\ (any_arabic (Some []) = inr false
      /\ text_and_any_arabic (Some []) = false
      /\ text_and_any_arabic None = false)
  /\ (forall problem_text,
        truthy_text problem_text = true ->
        exists b, any_arabic problem_text = inr b)
  /\ (forall key post render problem_text,
        truthy_text problem_text = false ->
        handle (solve_problem key post render problem_text None)
        = ([], error_reply 500
                 (py "Internal server error: 400: Either problem_text or image must be provided"))).
Proof.
  repeat split.
  - unfold any_arabic. f_equal. apply existsb_arabic_true; assumption.
  - rewrite text_and_any_arabic_some. apply existsb_arabic_true; assumption.
  - unfold any_arabic. f_equal. apply existsb_arabic_ascii; assumption.
  - rewrite text_and_any_arabic_some. apply existsb_arabic_ascii; assumption.
  - intros [s|]; [|discriminate]. intros _. simpl. eauto.
  - intros key post render problem_text H. rewrite handle_solve.
    unfold solve_user_message. rewrite H. cbn [negb provided andb].
    vm_compute. reflexivity.
Qed.

(** ** C5: the order of the messages that go out *)

(** C5: whatever [/solve] sends is the system prompt followed by one user
    message; whatever [/chat] sends starts with the system prompt and ends
    with the new user message, with the items of the history in between;
    a history that decodes to a list appears as it is, in its order, and
    without a history the two messages are all there is. *)
Theorem system_prompt_first_user_message_last
  (key : str) (loads : str -> result value) (post : request -> result response)
  (render : value -> result unit) :
  (forall problem_text image,
     outbound (handle (solve_problem key post render problem_text image)) = []
     \/ exists content,
          outbound (handle (solve_problem key post render problem_text image))
          = [PList [system_message; user_message_of content]])
  /\ (forall message history,
        outbound (handle (chat key loads post render message history)) = []
        \/ exists items,
             outbound (handle (chat key loads post render message history))
             = [PList (system_message :: items
                       ++ [user_message_of (PStr message)])])
  /\ (forall message history items,
        history <> [] ->
        loads history = inr (PList items) ->
        outbound (handle (chat key loads post render message (Some history)))
        = [PList (system_message :: items ++ [user_message_of (PStr message)])])
  /\ (forall message,
        outbound (handle (chat key loads post render message None))
        = [PList [system_message; user_message_of (PStr message)]]).
Proof.
  split; [|split; [|split]].
  - intros problem_text image. rewrite handle_solve.
    destruct (solve_user_message problem_text image) as [e|um] eqn:E;
      [left; reflexivity|right].
    assert (exists content, um = user_message_of content) as [content ->].
    { revert E. unfold solve_user_message.
      destruct (negb (truthy_text problem_text) && negb (provided image));
        [discriminate|].
      destruct image as [img|].
      - unfold image_user_message, rtry, rbind.
        destruct (read img); [discriminate|]. intros [= <-]. eauto.
      - unfold text_user_message, rbind.
        destruct (any_arabic problem_text) as [e|[|]];
          [discriminate| |]; intros [= <-]; eauto. }
    exists content. reflexivity.
  - intros message history. rewrite handle_chat.
    destruct (extend_with_history loads [system_message] history)
      as [e|messages] eqn:E; [left; reflexivity|right].
    destruct (extend_with_history_prefix _ _ _ _ E) as [items ->].
    exists items. reflexivity.
  - intros message [|c s] items Hne H; [contradiction|]. rewrite handle_chat.
    unfold extend_with_history, rtry, rbind. rewrite H. reflexivity.
  - intros message. rewrite handle_chat. reflexivity.
Qed.

(** ** C6: the user message of a request with an image *)

(** C6: for an image that can be read, the user message [/solve] sends has
    an image part whose URL is [data:], the MIME type, [;base64,] and the
    base64 text of the bytes, and then a text part. The MIME type is the
    declared one, or [image/jpeg] when none (or an empty one) is declared.
    The text is the fixed Arabic instruction when the caller's text has a
    codepoint of the Arabic block, the caller's text when it is not empty
    and has none, and the default English instruction when the text is
    absent or empty. *)
Theorem image_message_parts
  (key : str) (post : request -> result response)
  (render : value -> result unit)
  (problem_text : option str) (image : UploadFile) (data : list byte) :
  read image = inr data ->
  exists mime_type instruction,
    outbound (handle (solve_problem key post render problem_text (Some image)))
    = [PList
         [system_message;
          user_message_of
            (PList
               [PDict [(py "type", PStr (py "image_url"));
                       (py "image_url",
                        PDict [(py "url",
                                PStr (py "data:" ++ mime_type ++ py ";base64,"
                                      ++ Base64.b64encode data))])];
                PDict [(py "type", PStr (py "text"));
                       (py "text", PStr instruction)]])]]
    /\ (forall m, content_type image = Some m -> m <> [] -> mime_type = m)
    /\ (content_type image = None \/ content_type image = Some [] ->
        mime_type = py "image/jpeg")
    /\ (forall t, problem_text = Some t ->
        (exists c, In c t /\ 1536 <= c <= 1791) ->
        instruction = arabic_image_instruction)
    /\ (forall t, problem_text = Some t -> t <> [] ->
        (forall c, In c t -> ~ 1536 <= c <= 1791) ->
        instruction = t)
    /\ (problem_text = None \/ problem_text = Some [] ->
        instruction = default_image_instruction).
Proof.
  intros Hread.
  exists (text_or (content_type image) (py "image/jpeg")).
  exists (if text_and_any_arabic problem_text then arabic_image_instruction
          else text_or problem_text default_image_instruction).
  split; [|repeat split].
  - rewrite handle_solve. unfold solve_user_message.
    cbn [provided negb andb]. rewrite andb_false_r.
    unfold image_user_message, rtry, rbind. rewrite Hread. reflexivity.
  - intros m -> Hm. destruct m; [contradiction|reflexivity].
  - intros [->| ->]; reflexivity.
  - intros t -> Har. rewrite text_and_any_arabic_some.
    apply existsb_arabic_true in Har. rewrite Har. reflexivity.
  - intros t -> Ht Hno. rewrite text_and_any_arabic_some.
    assert (existsb in_arabic_block t = false) as ->.
    { destruct (existsb in_arabic_block t) eqn:E; [|reflexivity].
      apply existsb_arabic_true in E. destruct E as (c & Hin & Hc).
      elim (Hno c Hin Hc). }
    destruct t; [contradiction|reflexivity].
  - intros [->| ->]; reflexivity.
Qed.

(** ** C7 and C8: a history that is invalid, or empty *)

Lemma deep_succ (n : N) : Demo.deep (N.succ n) = 91 :: Demo.deep n.
Proof. unfold Demo.deep. apply N.iter_succ. Qed.

(** C7 at its failing input: a history of 100000 opening brackets is no
    JSON, and the decoder gives up on it with a [RecursionError] whatever
    its limit below that depth. The clause for [JSONDecodeError] does not
    catch it, nothing is sent, and the reply is 500, where the same
    request without a history is answered 200. *)
Theorem deeply_nested_history_fails (limit : Z) :
  0 <= limit < 100000 ->
  handle (chat Demo.key (Demo.loads_within limit) Demo.provider Demo.render
            Demo.question (Some (Demo.deep 100000)))
  = ([], error_reply 500
           (py "Internal server error: maximum recursion depth exceeded while decoding a JSON array from a unicode string"))
  /\ status (snd (handle (chat Demo.key (Demo.loads_within limit) Demo.provider
                            Demo.render Demo.question None))) = 200.
Proof.
  intros Hlimit. split; [|vm_compute; reflexivity].
  rewrite handle_chat.
  change 100000%N with (N.succ 99999). rewrite deep_succ.
  unfold extend_with_history, rtry, Demo.loads_within.
  match goal with
  | |- context [Demo.leading_brackets ?l] =>
      assert (Demo.leading_brackets l = 100000) as ->
        by (vm_compute; reflexivity)
  end.
  destruct (Z.ltb_spec limit 100000) as [_|H]; [|lia].
  cbn [rbind is_JSONDecodeError]. vm_compute. reflexivity.
Qed.

(** C7 at the usual limit of the interpreter. *)
Lemma deeply_nested_history_fails_witness :
  status (snd (handle (chat Demo.key (Demo.loads_within 1000) Demo.provider
                         Demo.render Demo.question (Some (Demo.deep 100000)))))
  = 500.
Proof.
  rewrite (proj1 (deeply_nested_history_fails 1000 ltac:(lia))).
  reflexivity.
Defined.

(** X13: when [json.loads] rejects the history with a [JSONDecodeError],
    the request is served exactly as the same request without a history:
    the same request goes out and the same reply comes back. *)
Theorem invalid_history_is_ignored
  (key : str) (loads : str -> result value) (post : request -> result response)
  (render : value -> result unit)
  (message history msg : str) :
  loads history = inl (JSONDecodeError msg) ->
  handle (chat key loads post render message (Some history))
  = handle (chat key loads post render message None).
Proof.
  intros H. rewrite !handle_chat.
  destruct history as [|c s]; [reflexivity|].
  unfold extend_with_history, rtry, rbind. rewrite H. reflexivity.
Qed.

(** C8: a history that is the empty text, or a text that decodes to the
    empty list, is served exactly as no history. *)
Theorem empty_history_is_no_history
  (key : str) (loads : str -> result value) (post : request -> result response)
  (render : value -> result unit)
  (message : str) :
  handle (chat key loads post render message (Some []))
  = handle (chat key loads post render message None)
  /\ (forall history,
        loads history = inr (PList []) ->
        handle (chat key loads post render message (Some history))
        = handle (chat key loads post render message None)
        /\ outbound (handle (chat key loads post render message (Some history)))
           = outbound (handle (chat key loads post render message None))).
Proof.
  split; [reflexivity|].
  intros history H.
  assert (handle (chat key loads post render message (Some history))
          = handle (chat key loads post render message None)) as E.
  { rewrite !handle_chat.
    destruct history as [|c s]; [reflexivity|].
    unfold extend_with_history, rtry, rbind. rewrite H. reflexivity. }
  rewrite E. split; reflexivity.
Qed.

(** ** C9: the call to the provider *)

Lemma handle_log (key : str) (loads : str -> result value)
  (post : request -> result response)
  (render : value -> result unit) (ep : io value) :
  endpoint key loads post render ep ->
  fst (handle ep) = []
  \/ exists messages,
       fst (handle ep) = [groq_request key messages default_model].
Proof.
  intros [problem_text image|message history].
  - rewrite handle_solve.
    destruct (solve_user_message problem_text image);
      [left; reflexivity | right; eexists; reflexivity].
  - rewrite handle_chat.
    destruct (extend_with_history loads [system_message] history);
      [left; reflexivity | right; eexists; reflexivity].
Qed.

Lemma provider_result_failure (answer : result response) :
  (exists e, answer = inl e)
  \/ (exists resp, answer = inr resp
                   /\ ~ 200 <= status_code resp <= 299) ->
  exists e, provider_result answer = inl e.
Proof.
  intros [[e ->]|(resp & -> & Hs)]; [exists e; reflexivity|].
  unfold provider_result, rbind, raise_for_status.
  destruct ((200 <=? status_code resp) && (status_code resp <=? 299)) eqn:E;
    [|eauto].
  apply andb_true_iff in E. destruct E as [E1 E2].
  apply Z.leb_le in E1, E2. elim Hs. lia.
Qed.

(** C9: [call_groq_api] adds exactly one request to those sent: to the
    completion URL, with the timeout 60.0 of its client and a payload of
    the model, the messages, the temperature 0.7 and 2000 for max_tokens.
    An endpoint sends at most one request while it serves one, each with
    these parameters. When the network raises for that request (connection
    failure, timeout) or the response has a status outside 200 to 299, the
    reply has status 500 and that one request is all that was sent; the
    detail quotes the transport error. *)
Theorem one_call_fixed_parameters_no_retry
  (key : str) (loads : str -> result value) (post : request -> result response)
  (render : value -> result unit) :
  (forall messages model log,
     fst (call_groq_api key post messages model log)
     = log ++ [{| url := GROQ_API_URL;
                  headers := [(py "Authorization", py "Bearer " ++ key);
                              (py "Content-Type", py "application/json")];
                  json := PDict [(py "model", PStr model);
                                 (py "messages", PList messages);
                                 (py "temperature", PFloat 7 (-1));
                                 (py "max_tokens", PInt 2000)];
                  timeout := PFloat 600 (-1) |}])
  /\ (forall ep,
        endpoint key loads post render ep ->
        (List.length (fst (handle ep)) <= 1)%nat
        /\ forall req, In req (fst (handle ep)) ->
             url req = GROQ_API_URL
             /\ timeout req = PFloat 600 (-1)
             /\ field (py "temperature") (json req) = PFloat 7 (-1)
             /\ field (py "max_tokens") (json req) = PInt 2000
             /\ field (py "model") (json req) = PStr default_model)
  /\ (forall ep req,
        endpoint key loads post render ep ->
        fst (handle ep) = [req] ->
        (exists e, post req = inl e)
        \/ (exists resp, post req = inr resp
                         /\ ~ 200 <= status_code resp <= 299) ->
        status (snd (handle ep)) = 500)
  /\ (forall ep req msg,
        endpoint key loads post render ep ->
        fst (handle ep) = [req] ->
        post req = inl (HTTPError msg) ->
        snd (handle ep)
        = error_reply 500 (py "Error calling AI service: " ++ msg))
  /\ (forall ep req resp,
        endpoint key loads post render ep ->
        fst (handle ep) = [req] ->
        post req = inr resp ->
        ~ 200 <= status_code resp <= 299 ->
        snd (handle ep)
        = error_reply 500 (py "Error calling AI service: " ++ reason resp)).
Proof.
  split; [|split; [|split; [|split]]].
  - intros messages model log. rewrite call_groq_api_run. reflexivity.
  - intros ep Hep.
    destruct (handle_log _ _ _ _ _ Hep) as [->|[messages ->]].
    + split; [simpl; lia|intros req []].
    + split; [simpl; lia|].
      intros req [<-|[]]. repeat split; reflexivity.
  - intros ep req Hep Hreq Hfail.
    destruct (handle_sent _ _ _ _ _ _ Hep Hreq) as (content & -> & _).
    destruct (provider_result_failure _ Hfail) as [e ->].
    apply status_endpoint_error.
  - intros ep req msg Hep Hreq Hpost.
    destruct (handle_sent _ _ _ _ _ _ Hep Hreq) as (content & -> & _).
    rewrite Hpost. reflexivity.
  - intros ep req resp Hep Hreq Hpost Hs.
    destruct (handle_sent _ _ _ _ _ _ Hep Hreq) as (content & -> & _).
    rewrite Hpost. unfold provider_result, rbind, raise_for_status.
    destruct ((200 <=? status_code resp) && (status_code resp <=? 299)) eqn:E.
    + apply andb_true_iff in E. destruct E as [E1 E2].
      apply Z.leb_le in E1, E2. elim Hs. lia.
    + reflexivity.
Qed.

(** ** C10: an empty text *)




Lemma reply_200_content (r : result value) (content : value) :
  serve (handled r) = Reply 200 content -> r = inr content.
Proof.
  destruct r as [e|v]; simpl.
  - destruct (endpoint_error_500 e) as [d ->]. simpl. discriminate.
  - intros [= ->]. reflexivity.
Qed.


(** ** The statements above at work in the demo environment *)

Lemma demo_no_choices : no_choices Demo.empty_completion.
Proof.
  exists [(py "choices", PList []); (py "model", PStr default_model)].
  split; [reflexivity|right; reflexivity].
Defined.

Lemma demo_first_choice : first_choice_content Demo.completion (PStr (py "x = 4")).
Proof.
  exists [(py "choices",
           PList [PDict [(py "message",
                          PDict [(py "role", PStr (py "assistant"));
                                 (py "content", PStr (py "x = 4"))])]]);
          (py "model", PStr default_model)].
  exists (PDict [(py "message",
                  PDict [(py "role", PStr (py "assistant"));
                         (py "content", PStr (py "x = 4"))])]).
  exists [].
  exists (PDict [(py "role", PStr (py "assistant"));
                 (py "content", PStr (py "x = 4"))]).
  repeat split; reflexivity.
Defined.

(** C3 on two providers: one answers with an empty list of choices, the
    other with one choice. *)
Lemma choices_decide_the_reply_witness :
  (no_choices Demo.empty_completion
   /\ snd (handle (chat Demo.key Demo.loads Demo.provider_without_choices Demo.render
                     Demo.question None))
      = error_reply 500
          (py "Internal server error: 500: Invalid response from AI service"))
  /\ (first_choice_content Demo.completion (PStr (py "x = 4"))
      /\ field (py "solution")
           (body (snd (handle (solve_problem Demo.key Demo.provider Demo.render
                                 (Some Demo.question) None))))
         = PStr (py "x = 4")
      /\ field (py "usage")
           (body (snd (handle (solve_problem Demo.key Demo.provider Demo.render
                                 (Some Demo.question) None))))
         = PDict []).
Proof.
  split; (split; [first [exact demo_no_choices | exact demo_first_choice]|]).
  - apply (proj1 (choices_decide_the_reply Demo.key Demo.loads
                    Demo.provider_without_choices Demo.render)
             (chat Demo.key Demo.loads Demo.provider_without_choices Demo.render
                Demo.question None)
             (Demo.sent [system_message; user_message_of (PStr Demo.question)])
             Demo.empty_completion).
    + constructor.
    + vm_compute. reflexivity.
    + vm_compute. reflexivity.
    + exact demo_no_choices.
  - assert (snd (handle (solve_problem Demo.key Demo.provider Demo.render
                           (Some Demo.question) None))
            = Reply 200
                (PDict
                   [(py "success", PBool true);
                    (py "solution", PStr (py "x = 4"));
                    (py "model",
                     entry_or (py "model") Demo.completion (PStr default_model));
                    (py "usage",
                     entry_or (py "usage") Demo.completion (PDict []));
                    (py "metadata",
                     PDict [(py "has_image", PBool false);
                            (py "has_text", PBool true);
                            (py "teaching_mode", PStr (py "adaptive"))])])) as E.
    { refine (proj1 (proj1 (proj2 (choices_decide_the_reply Demo.key Demo.loads
                                     Demo.provider Demo.render))
                       (Some Demo.question) None
                       (Demo.sent [system_message;
                                   user_message_of
                                     (PStr (Demo.question ++ english_directive))])
                       Demo.completion (PStr (py "x = 4")) _ _ demo_first_choice)
                _);
        vm_compute; reflexivity. }
    rewrite E. split; vm_compute; reflexivity.
Defined.

(** C4 on a problem stated in Arabic and on an ASCII one. *)
Lemma language_detector_answers_witness :
  (any_arabic (Some Demo.arabic_question) = inr true
   /\ text_and_any_arabic (Some Demo.arabic_question) = true)
  /\ (any_arabic (Some Demo.question) = inr false
      /\ text_and_any_arabic (Some Demo.question) = false)
  /\ (exists b, any_arabic (Some Demo.question) = inr b)
  /\ handle (solve_problem Demo.key Demo.provider Demo.render (Some []) None)
     = ([], error_reply 500
              (py "Internal server error: 400: Either problem_text or image must be provided")).
Proof.
  destruct language_detector_answers as (H1 & H2 & _ & H4 & H5).
  split; [|split; [|split]].
  - apply H1. exists 1581. split; [vm_compute; left; reflexivity | lia].
  - apply H2. apply Forall_forall. intros c Hc. vm_compute in Hc.
    repeat (destruct Hc as [<-|Hc]; [lia|]). destruct Hc.
  - apply H4. reflexivity.
  - apply H5. reflexivity.
Defined.

(** C5 on a history of two messages. *)
Lemma system_prompt_first_user_message_last_witness :
  Demo.loads Demo.history_text = inr (PList Demo.history)
  /\ outbound (handle (chat Demo.key Demo.loads Demo.provider Demo.render Demo.question
                         (Some Demo.history_text)))
     = [PList (system_message :: Demo.history
               ++ [user_message_of (PStr Demo.question)])].
Proof.
  assert (Demo.loads Demo.history_text = inr (PList Demo.history)) as E
    by (vm_compute; reflexivity).
  split; [exact E|].
  apply (proj1 (proj2 (proj2 (system_prompt_first_user_message_last
                                Demo.key Demo.loads Demo.provider Demo.render)))).
  - intros H. vm_compute in H. discriminate H.
  - exact E.
Defined.

(** C6 on a PNG upload beside an Arabic text. *)
Lemma image_message_parts_witness :
  read Demo.photo = inr Demo.photo_bytes
  /\ exists mime_type instruction,
       outbound (handle (solve_problem Demo.key Demo.provider Demo.render
                           (Some Demo.arabic_question) (Some Demo.photo)))
       = [PList
            [system_message;
             user_message_of
               (PList
                  [PDict [(py "type", PStr (py "image_url"));
                          (py "image_url",
                           PDict [(py "url",
                                   PStr (py "data:" ++ mime_type
                                         ++ py ";base64,"
                                         ++ Base64.b64encode Demo.photo_bytes))])];
                   PDict [(py "type", PStr (py "text"));
                          (py "text", PStr instruction)]])]]
       /\ mime_type = py "image/png"
       /\ instruction = arabic_image_instruction.
Proof.
  split; [reflexivity|].
  destruct (image_message_parts Demo.key Demo.provider Demo.render
              (Some Demo.arabic_question) Demo.photo Demo.photo_bytes eq_refl)
    as (mime_type & instruction & Hout & Hmime & _ & Har & _).
  exists mime_type, instruction.
  split; [exact Hout|split].
  - apply Hmime; [reflexivity|]. intros H. vm_compute in H. discriminate H.
  - apply (Har Demo.arabic_question eq_refl).
    exists 1581. split; [vm_compute; left; reflexivity | lia].
Defined.

(** X13 on a text that breaks off. *)
Lemma invalid_history_is_ignored_witness :
  Demo.loads (py "[1, ") = inl (JSONDecodeError (py "Expecting value"))
  /\ handle (chat Demo.key Demo.loads Demo.provider Demo.render Demo.question
               (Some (py "[1, ")))
     = handle (chat Demo.key Demo.loads Demo.provider Demo.render Demo.question None).
Proof.
  assert (Demo.loads (py "[1, ") = inl (JSONDecodeError (py "Expecting value")))
    as E by (vm_compute; reflexivity).
  split; [exact E|].
  exact (invalid_history_is_ignored Demo.key Demo.loads Demo.provider Demo.render
           Demo.question (py "[1, ") (py "Expecting value") E).
Defined.

(** C8 on the text of the empty list. *)
Lemma empty_history_is_no_history_witness :
  Demo.loads (py "[]") = inr (PList [])
  /\ handle (chat Demo.key Demo.loads Demo.provider Demo.render Demo.question (Some (py "[]")))
     = handle (chat Demo.key Demo.loads Demo.provider Demo.render Demo.question None).
Proof.
  assert (Demo.loads (py "[]") = inr (PList [])) as E by (vm_compute; reflexivity).
  split; [exact E|].
  exact (proj1 (proj2 (empty_history_is_no_history Demo.key Demo.loads
                         Demo.provider Demo.render Demo.question) (py "[]") E)).
Defined.

(** C9 on a network that is down and on a provider that answers 503. *)
Lemma one_call_fixed_parameters_no_retry_witness :
  (Demo.network_down
     (Demo.sent [system_message; user_message_of (PStr Demo.question)])
   = inl (HTTPError (py "All connection attempts failed"))
   /\ handle (chat Demo.key Demo.loads Demo.network_down Demo.render Demo.question None)
      = ([Demo.sent [system_message; user_message_of (PStr Demo.question)]],
         error_reply 500
           (py "Error calling AI service: All connection attempts failed")))
  /\ status (snd (handle (chat Demo.key Demo.loads Demo.provider_unavailable Demo.render
                            Demo.question None))) = 500.
Proof.
  split; [split; [reflexivity|]|].
  - assert (fst (handle (chat Demo.key Demo.loads Demo.network_down Demo.render
                           Demo.question None))
            = [Demo.sent [system_message; user_message_of (PStr Demo.question)]])
      as Hlog by (vm_compute; reflexivity).
    pose proof
      (proj1 (proj2 (proj2 (proj2 (one_call_fixed_parameters_no_retry
                                     Demo.key Demo.loads Demo.network_down Demo.render))))
         _ _ (py "All connection attempts failed")
         (endpoint_chat _ _ _ _ Demo.question None) Hlog eq_refl) as Hreply.
    destruct (handle (chat Demo.key Demo.loads Demo.network_down Demo.render
                        Demo.question None)) as [log r].
    cbn [fst snd] in Hlog, Hreply. rewrite Hlog, Hreply.
    vm_compute. reflexivity.
  - apply (proj1 (proj2 (proj2 (one_call_fixed_parameters_no_retry
                                  Demo.key Demo.loads Demo.provider_unavailable Demo.render)))
             _ (Demo.sent [system_message; user_message_of (PStr Demo.question)])
             (endpoint_chat _ _ _ _ Demo.question None)).
    + vm_compute. reflexivity.
    + right. eexists. split; [reflexivity|]. simpl. lia.
Defined.


(** * More of the service *)

(** ** Replies and requests, whatever the request *)

(** X1: once the framework has bound the form fields and calls the
    handler of [/solve] or [/chat], the call either fails before anything
    is sent, with status 500, or sends exactly one request and ends with
    status 200 or 500. The handlers never answer with another status: the
    400 the source raises in two places is always turned into a 500.
    (What the framework answers without calling a handler, as for a form
    without the required message, is not a reply of the handlers.) *)
Theorem replies_are_200_or_500
  (key : str) (loads : str -> result value) (post : request -> result response)
  (render : value -> result unit) :
  (forall problem_text image,
     (fst (handle (solve_problem key post render problem_text image)) = []
      /\ status (snd (handle (solve_problem key post render problem_text image))) = 500)
     \/ (exists req,
           fst (handle (solve_problem key post render problem_text image)) = [req]
           /\ (status (snd (handle (solve_problem key post render problem_text image)))
               = 200
               \/ status (snd (handle (solve_problem key post render problem_text image)))
                  = 500)))
  /\ (forall message history,
        (fst (handle (chat key loads post render message history)) = []
         /\ status (snd (handle (chat key loads post render message history))) = 500)
        \/ (exists req,
              fst (handle (chat key loads post render message history)) = [req]
              /\ (status (snd (handle (chat key loads post render message history)))
                  = 200
                  \/ status (snd (handle (chat key loads post render message history)))
                     = 500))).
Proof.
  split.
  - intros problem_text image. rewrite handle_solve.
    destruct (solve_user_message problem_text image) as [e|um].
    + left. split; [reflexivity|apply status_endpoint_error].
    + right. eexists. split; [reflexivity|apply status_handled].
  - intros message history. rewrite handle_chat.
    destruct (extend_with_history loads [system_message] history) as [e|ms].
    + left. split; [reflexivity|apply status_endpoint_error].
    + right. eexists. split; [reflexivity|apply status_handled].
Qed.

(** ** When a reply is a success *)

Lemma check_choices_inv (r : value) :
  check_choices r = inr tt ->
  exists d choices,
    r = PDict d /\ lookup (py "choices") d = Some choices
    /\ truthy choices = true.
Proof.
  unfold check_choices, py_contains, py_getitem.
  destruct r as [| b | n | m e | s | l | d]; cbn [rbind]; try discriminate.
  - destruct (str_containsb (py "choices") s); cbn [negb]; discriminate.
  - destruct (existsb (is_str (py "choices")) l); cbn [negb]; discriminate.
  - destruct (lookup (py "choices") d) as [choices|] eqn:E; cbn [negb rbind];
      [|discriminate].
    destruct (truthy choices) eqn:T; cbn [negb]; [|discriminate].
    intros _. exists d, choices. auto.
Qed.

Lemma first_content_inv (d : list (str * value)) (choices text : value) :
  lookup (py "choices") d = Some choices ->
  first_content (PDict d) = inr text ->
  exists c cs message,
    choices = PList (c :: cs)
    /\ py_getitem c (py "message") = inr message
    /\ py_getitem message (py "content") = inr text.
Proof.
  intros E. unfold first_content. cbn [py_getitem]. rewrite E. cbn [rbind].
  destruct choices as [| b | n | m e | s | l | d']; cbn [py_getitem0 rbind];
    try discriminate.
  - destruct s; cbn [rbind py_getitem]; discriminate.
  - destruct l as [|c cs]; cbn [rbind]; [discriminate|].
    destruct (py_getitem c (py "message")) as [e|message] eqn:M; cbn [rbind];
      [discriminate|].
    intros H. exists c, cs, message. auto.
Qed.

Lemma content_inv (r : value) :
  check_choices r = inr tt ->
  forall text, first_content r = inr text -> first_choice_content r text.
Proof.
  intros Hc text Hf.
  destruct (check_choices_inv _ Hc) as (d & choices & -> & E & _).
  destruct (first_content_inv _ _ _ E Hf) as (c & cs & message & -> & M & C).
  exists d, c, cs, message. auto.
Qed.

Lemma JSONResponse_inv (render : value -> result unit) (content x : value) :
  JSONResponse render content = inr x -> x = content /\ render content = inr tt.
Proof.
  unfold JSONResponse, rbind.
  destruct (render content) as [e|[]]; [discriminate|].
  intros [= <-]. auto.
Qed.

Lemma solve_content_inv (render : value -> result unit)
  (problem_text : option str) (image : option UploadFile) (r content : value) :
  solve_content render problem_text image r = inr content ->
  exists text,
    first_choice_content r text
    /\ content = solve_success problem_text image r text
    /\ render content = inr tt.
Proof.
  intros H.
  assert (exists text, check_choices r = inr tt /\ first_content r = inr text)
    as (text & Hc & Hf).
  { revert H. unfold solve_content, rbind.
    destruct (check_choices r) as [e|[]]; [discriminate|].
    destruct (first_content r) as [e|text]; [discriminate|]. eauto. }
  pose proof (content_inv _ Hc _ Hf) as Hfirst.
  exists text. split; [exact Hfirst|].
  rewrite (solve_content_first _ _ _ _ _ Hfirst) in H.
  apply JSONResponse_inv in H. destruct H as [-> H]. auto.
Qed.

Lemma chat_content_inv (render : value -> result unit) (r content : value) :
  chat_content render r = inr content ->
  exists text,
    first_choice_content r text
    /\ content = chat_success r text
    /\ render content = inr tt.
Proof.
  intros H.
  assert (exists text, check_choices r = inr tt /\ first_content r = inr text)
    as (text & Hc & Hf).
  { revert H. unfold chat_content, rbind.
    destruct (check_choices r) as [e|[]]; [discriminate|].
    destruct (first_content r) as [e|text]; [discriminate|]. eauto. }
  pose proof (content_inv _ Hc _ Hf) as Hfirst.
  exists text. split; [exact Hfirst|].
  rewrite (chat_content_first _ _ _ Hfirst) in H.
  apply JSONResponse_inv in H. destruct H as [-> H]. auto.
Qed.

(** X2: [/solve] replies 200 exactly when it sent one request, the
    provider answered it with a success status and a body that decodes to
    a dict whose choices are a list with a first element holding
    [message.content], and the [JSONResponse] built from that text and
    that response could render its content; that content is then the
    reply. Any other response of the provider (not a dict, choices of
    another type, a first choice without a message, a text or a number
    that cannot be rendered) ends in an error reply. *)
Theorem solve_replies_200_iff
  (key : str) (post : request -> result response)
  (render : value -> result unit)
  (problem_text : option str) (image : option UploadFile) (content : value) :
  snd (handle (solve_problem key post render problem_text image))
  = Reply 200 content
  <-> exists req r text,
        fst (handle (solve_problem key post render problem_text image)) = [req]
        /\ provider_result (post req) = inr r
        /\ first_choice_content r text
        /\ content = solve_success problem_text image r text
        /\ render content = inr tt.
Proof.
  rewrite handle_solve.
  destruct (solve_user_message problem_text image) as [e|um]; cbn [fst snd].
  - split.
    + intros H. apply (reply_200_content (inl e)) in H. discriminate.
    + intros (req & r & text & H & _). discriminate.
  - split.
    + intros H. apply reply_200_content in H.
      destruct (provider_result _) as [e|r] eqn:Hr; [discriminate|].
      cbn [rbind] in H.
      destruct (solve_content_inv _ _ _ _ _ H) as (text & Hfirst & -> & Hren).
      eexists _, r, text. repeat split; [exact Hr|exact Hfirst|exact Hren].
    + intros (req & r & text & [= <-] & Hr & Hfirst & -> & Hren).
      rewrite Hr. cbn [rbind].
      rewrite (solve_content_first _ _ _ _ _ Hfirst).
      fold (solve_success problem_text image r text).
      rewrite (JSONResponse_rendered _ _ Hren). reflexivity.
Qed.

(** X3: the same for [/chat]. *)
Theorem chat_replies_200_iff
  (key : str) (loads : str -> result value) (post : request -> result response)
  (render : value -> result unit)
  (message : str) (history : option str) (content : value) :
  snd (handle (chat key loads post render message history)) = Reply 200 content
  <-> exists req r text,
        fst (handle (chat key loads post render message history)) = [req]
        /\ provider_result (post req) = inr r
        /\ first_choice_content r text
        /\ content = chat_success r text
        /\ render content = inr tt.
Proof.
  rewrite handle_chat.
  destruct (extend_with_history loads [system_message] history) as [e|ms];
    cbn [fst snd].
  - split.
    + intros H. apply (reply_200_content (inl e)) in H. discriminate.
    + intros (req & r & text & H & _). discriminate.
  - split.
    + intros H. apply reply_200_content in H.
      destruct (provider_result _) as [e|r] eqn:Hr; [discriminate|].
      cbn [rbind] in H.
      destruct (chat_content_inv _ _ _ H) as (text & Hfirst & -> & Hren).
      eexists _, r, text. repeat split; [exact Hr|exact Hfirst|exact Hren].
    + intros (req & r & text & [= <-] & Hr & Hfirst & -> & Hren).
      rewrite Hr. cbn [rbind].
      rewrite (chat_content_first _ _ _ Hfirst).
      fold (chat_success r text).
      rewrite (JSONResponse_rendered _ _ Hren). reflexivity.
Qed.

(** ** Failures before the provider is called *)

(** X4: when [read()] of the upload raises, [/solve] sends nothing and
    replies 500, whatever the text: the 400 of the image branch is caught
    by the outer clause, and the detail quotes it with the text of the
    exception. *)
Theorem unreadable_image_replies_500
  (key : str) (post : request -> result response)
  (render : value -> result unit)
  (problem_text : option str) (image : UploadFile) (e : exn) :
  read image = inl e ->
  handle (solve_problem key post render problem_text (Some image))
  = ([], error_reply 500
           (py "Internal server error: 400: Image processing error: "
            ++ str_of_exn e)).
Proof.
  intros H. rewrite handle_solve. unfold solve_user_message.
  cbn [provided negb]. rewrite andb_false_r.
  unfold image_user_message, rtry. rewrite H. cbn [rbind].
  generalize (str_of_exn e). intros text. vm_compute. reflexivity.
Qed.

Lemma py_iter_error (v : value) (e : exn) :
  py_iter v = inl e ->
  e = TypeError (quoted (type_name v) ++ py " object is not iterable").
Proof. destruct v; simpl; congruence. Qed.

(** X5: a history that is valid JSON but no list, dict or string (null, a
    boolean, a number) fails the request: [messages.extend] raises a
    [TypeError], the clause for [JSONDecodeError] lets it pass, nothing is
    sent and the reply is 500. So does any exception of [json.loads] that
    is no [JSONDecodeError]. *)
Theorem history_that_cannot_be_spliced_fails
  (key : str) (loads : str -> result value) (post : request -> result response)
  (render : value -> result unit)
  (message history : str) :
  history <> [] ->
  (forall v e,
     loads history = inr v ->
     py_iter v = inl e ->
     handle (chat key loads post render message (Some history))
     = ([], error_reply 500
              (py "Internal server error: " ++ quoted (type_name v)
               ++ py " object is not iterable")))
  /\ (forall e,
        loads history = inl e ->
        is_JSONDecodeError e = false ->
        handle (chat key loads post render message (Some history))
        = ([], serve (inl (endpoint_error e)))
        /\ status (snd (handle (chat key loads post render message (Some history))))
           = 500).
Proof.
  intros Hne. destruct history as [|c s]; [contradiction|]. split.
  - intros v e Hv He. rewrite handle_chat.
    unfold extend_with_history, rtry. rewrite Hv. cbn [rbind]. rewrite He.
    rewrite (py_iter_error _ _ He). cbn [rbind is_JSONDecodeError].
    generalize (type_name v). intros t. vm_compute. reflexivity.
  - intros e He Hno. rewrite handle_chat.
    unfold extend_with_history, rtry. rewrite He. cbn [rbind]. rewrite Hno.
    split; [reflexivity|apply status_endpoint_error].
Qed.

(** X6: the history is not checked to be a list of messages. A history
    that decodes to a dict puts its keys, as bare strings, between the
    system prompt and the user message; one that decodes to a string puts
    its characters there, one message each. *)
Theorem history_dict_or_string_is_spliced
  (key : str) (loads : str -> result value) (post : request -> result response)
  (render : value -> result unit)
  (message history : str) :
  history <> [] ->
  (forall d,
     loads history = inr (PDict d) ->
     outbound (handle (chat key loads post render message (Some history)))
     = [PList (system_message :: map (fun kv => PStr (fst kv)) d
               ++ [user_message_of (PStr message)])])
  /\ (forall s,
        loads history = inr (PStr s) ->
        outbound (handle (chat key loads post render message (Some history)))
        = [PList (system_message :: map (fun c => PStr [c]) s
                  ++ [user_message_of (PStr message)])]).
Proof.
  intros Hne. destruct history as [|c s0]; [contradiction|].
  split; intros x H; rewrite handle_chat;
    unfold extend_with_history, rtry; rewrite H; reflexivity.
Qed.

(** ** Failures after the provider answered *)

(** X7: when the provider answers with a success status and a body
    [response.json()] cannot decode, the reply is 500 and its detail is
    the one of an internal error, not the one of a failed call: the
    exception is no [httpx.HTTPError]. *)
Theorem undecodable_body_is_an_internal_error
  (key : str) (loads : str -> result value) (post : request -> result response)
  (render : value -> result unit)
  (ep : io value) (req : request) (resp : response) (msg : str) :
  endpoint key loads post render ep ->
  fst (handle ep) = [req] ->
  post req = inr resp ->
  200 <= status_code resp <= 299 ->
  json_result resp = inl (JSONDecodeError msg) ->
  snd (handle ep) = error_reply 500 (py "Internal server error: " ++ msg).
Proof.
  intros Hep Hreq Hpost Hs Hj.
  destruct (handle_sent _ _ _ _ _ _ Hep Hreq) as (content & -> & _).
  rewrite Hpost. unfold provider_result, raise_for_status. cbn [rbind].
  assert ((200 <=? status_code resp) && (status_code resp <=? 299) = true) as ->.
  { apply andb_true_iff. split; apply Z.leb_le; lia. }
  cbn [rbind]. rewrite Hj. reflexivity.
Qed.

(** ** The key: from start-up to the requests *)

(** X8: the module loads exactly when the environment gives a key that is
    not empty, and then holds that key; for a module that loaded,
    [/health] always reports the key as configured. *)
Theorem loaded_service_has_a_key (getenv : option str) :
  (forall key,
     load_api_key getenv = inr key ->
     getenv = Some key /\ key <> []
     /\ field (py "api_key_configured") (health key) = PBool true)
  /\ (getenv = None \/ getenv = Some [] ->
      load_api_key getenv
      = inl (OtherException (py "GROQ_API_KEY environment variable is required")))
  /\ (forall key, getenv = Some key -> key <> [] -> load_api_key getenv = inr key).
Proof.
  split; [|split].
  - intros key. destruct getenv as [[|c s]|]; try discriminate.
    intros [= <-]. split; [reflexivity|split; [discriminate|reflexivity]].
  - intros [->| ->]; reflexivity.
  - intros key -> Hne. destruct key; [contradiction|reflexivity].
Qed.

(** X9: every request a loaded service sends, from either route, carries
    the header [Authorization] with [Bearer ] and the key, which is not
    empty, and the header [Content-Type] with [application/json]. *)
Theorem requests_carry_the_key
  (getenv : option str) (key : str) (loads : str -> result value)
  (post : request -> result response)
  (render : value -> result unit) (ep : io value) (req : request) :
  load_api_key getenv = inr key ->
  endpoint key loads post render ep ->
  In req (fst (handle ep)) ->
  header (py "Authorization") (headers req) = py "Bearer " ++ key
  /\ header (py "Content-Type") (headers req) = py "application/json"
  /\ (List.length (py "Bearer ") < List.length (header (py "Authorization") (headers req)))%nat.
Proof.
  intros Hkey Hep Hin.
  destruct (handle_log _ _ _ _ _ Hep) as [E|[messages E]]; rewrite E in Hin;
    [destruct Hin|].
  destruct Hin as [<-|[]].
  assert (header (py "Authorization")
            (headers (groq_request key messages default_model))
          = py "Bearer " ++ key) as Ha by (vm_compute; reflexivity).
  rewrite Ha. split; [reflexivity|split].
  - vm_compute. reflexivity.
  - destruct getenv as [[|c s]|]; try discriminate.
    injection Hkey as <-. rewrite length_app. simpl. lia.
Qed.

(** ** The base64 text of an image *)

Lemma list_ind3 {A : Type} (P : list A -> Prop) :
  P [] -> (forall a, P [a]) -> (forall a b, P [a; b]) ->
  (forall a b c l, P l -> P (a :: b :: c :: l)) ->
  forall l, P l.
Proof.
  intros H0 H1 H2 H3 l.
  assert (forall n l, (List.length l <= n)%nat -> P l) as H.
  { induction n as [|n IH]; intros [|a [|b [|c l']]] Hl; auto;
      simpl in Hl; try lia.
    apply H3. apply IH. lia. }
  apply (H (List.length l)). lia.
Qed.

(** A character of the base64 alphabet, or the padding mark. *)
Definition base64_char (c : codepoint) : Prop :=
  65 <= c <= 90 \/ 97 <= c <= 122 \/ 48 <= c <= 57
  \/ c = 43 \/ c = 47 \/ c = 61.

Lemma sextet_char (n k : Z) : base64_char (Base64.sextet n k).
Proof.
  unfold Base64.sextet.
  assert (0 <= Z.land (Z.shiftr n (6 * k)) 63 < 64) as H.
  { change 63 with (Z.ones 6). rewrite Z.land_ones by lia.
    apply Z.mod_pos_bound. reflexivity. }
  revert H. generalize (Z.land (Z.shiftr n (6 * k)) 63). intros i Hi.
  unfold Base64.alphabet, base64_char.
  destruct (i <? 26) eqn:E1; [apply Z.ltb_lt in E1; lia|].
  apply Z.ltb_ge in E1.
  destruct (i <? 52) eqn:E2; [apply Z.ltb_lt in E2; lia|].
  apply Z.ltb_ge in E2.
  destruct (i <? 62) eqn:E3; [apply Z.ltb_lt in E3; lia|].
  destruct (i =? 62); lia.
Qed.

(** X10: the base64 text of [n] bytes has [4 * ceil(n / 3)] characters,
    each a letter, a digit, [+], [/] or [=]: it is ASCII, so decoding it
    as UTF-8 cannot fail. *)
Theorem b64encode_length_and_alphabet (data : list byte) :
  List.length (Base64.b64encode data)
  = (4 * ((List.length data + 2) / 3))%nat
  /\ Forall base64_char (Base64.b64encode data)
  /\ Forall (fun c => 0 <= c <= 127) (Base64.b64encode data).
Proof.
  assert (forall c, base64_char c -> 0 <= c <= 127) as Hascii
    by (unfold base64_char; intros c; lia).
  assert (base64_char Base64.pad) as Hpad
    by (unfold base64_char, Base64.pad; lia).
  assert (Forall base64_char (Base64.b64encode data)) as Hall.
  { induction data as [|a|a b|a b c l IH] using list_ind3;
      cbn [Base64.b64encode];
      repeat (apply Forall_cons; [auto using sextet_char|]);
      auto using Forall_nil. }
  split; [|split; [exact Hall|]].
  - clear Hall. induction data as [|a|a b|a b c l IH] using list_ind3;
      try reflexivity.
    cbn [Base64.b64encode List.length]. rewrite IH.
    replace (S (S (S (List.length l))) + 2)%nat
      with (1 * 3 + (List.length l + 2))%nat by lia.
    rewrite Nat.div_add_l by lia. lia.
  - eapply Forall_impl; [exact Hascii|exact Hall].
Qed.

(** ** The first version of the service *)

(** X11: the route of [main (1).py] calls the client once, with the model
    [llama-3.1-70b-versatile], the prompt of that file and the caller's
    message as it is, 2000 for max_tokens and the temperature 0.7. It
    replies 200 with the content of the first choice exactly when the
    client returned a completion whose first choice has a content and the
    framework could render the returned model; when the client raises,
    when there is no choice, or when the content is [None], it replies 500
    with the text of the exception as the detail, and when the returned
    model cannot be rendered the reply is the plain 500 of the server. *)
Theorem chat_v1_reply
  (create : Main1.create_args -> result Main1.ChatCompletion)
  (validation_error : exn) (render : value -> result unit)
  (request : Main1.ChatRequest) :
  (forall s,
     Main1.respond render (Main1.chat create validation_error request)
     = Reply 200 (PDict [(py "response", PStr s)])
     <-> exists completion choice rest,
           create (Main1.chat_args request) = inr completion
           /\ Main1.choices completion = choice :: rest
           /\ Main1.content (Main1.choice_message choice) = Some s
           /\ render (PDict [(py "response", PStr s)]) = inr tt)
  /\ (forall e,
        create (Main1.chat_args request) = inl e ->
        Main1.respond render (Main1.chat create validation_error request)
        = error_reply 500 (str_of_exn e))
  /\ (forall completion,
        create (Main1.chat_args request) = inr completion ->
        Main1.choices completion = [] ->
        Main1.respond render (Main1.chat create validation_error request)
        = error_reply 500 (py "list index out of range"))
  /\ (forall completion choice rest,
        create (Main1.chat_args request) = inr completion ->
        Main1.choices completion = choice :: rest ->
        Main1.content (Main1.choice_message choice) = None ->
        Main1.respond render (Main1.chat create validation_error request)
        = error_reply 500 (str_of_exn validation_error))
  /\ (forall completion choice rest s e,
        create (Main1.chat_args request) = inr completion ->
        Main1.choices completion = choice :: rest ->
        Main1.content (Main1.choice_message choice) = Some s ->
        render (PDict [(py "response", PStr s)]) = inl e ->
        Main1.respond render (Main1.chat create validation_error request)
        = Reply 500 (PStr (py "Internal Server Error")))
  /\ Main1.chat_args request
     = {| Main1.model := py "llama-3.1-70b-versatile";
          Main1.messages :=
            [PDict [(py "role", PStr (py "system"));
                    (py "content", PStr Main1.SYSTEM_PROMPT)];
             PDict [(py "role", PStr (py "user"));
                    (py "content", PStr (Main1.message request))]];
          Main1.max_tokens := 2000;
          Main1.temperature := PFloat 7 (-1) |}.
Proof.
  unfold Main1.respond, Main1.chat, rtry, Main1.first, Main1.ChatResponse.
  split; [|split; [|split; [|split; [|split]]]].
  - intros s.
    destruct (create (Main1.chat_args request)) as [e|completion];
      cbn [rbind].
    + split; [discriminate|]. intros (c & ch & rest & H & _). discriminate.
    + destruct (Main1.choices completion) as [|choice rest] eqn:Hc;
        cbn [rbind].
      * split; [discriminate|].
        intros (c & ch & rest & [= <-] & H & _). congruence.
      * destruct (Main1.content (Main1.choice_message choice)) as [t|] eqn:Ht.
        -- destruct (render (PDict [(py "response", PStr t)])) as [e|[]] eqn:R.
           ++ split; [discriminate|].
              intros (c & ch & rest' & [= <-] & H & Hs & Hr).
              rewrite Hc in H. injection H as <- <-.
              rewrite Ht in Hs. injection Hs as ->. congruence.
           ++ split.
              ** intros [= ->]. exists completion, choice, rest. auto.
              ** intros (c & ch & rest' & [= <-] & H & Hs & _).
                 rewrite Hc in H. injection H as <- <-.
                 rewrite Ht in Hs. injection Hs as ->. reflexivity.
        -- split; [discriminate|].
           intros (c & ch & rest' & [= <-] & H & Hs & _).
           rewrite Hc in H. injection H as <- <-. congruence.
  - intros e ->. reflexivity.
  - intros completion -> H. cbn [rbind]. rewrite H. reflexivity.
  - intros completion choice rest -> H1 H2. cbn [rbind]. rewrite H1.
    cbn [rbind]. rewrite H2. reflexivity.
  - intros completion choice rest s e -> H1 H2 R. cbn [rbind]. rewrite H1.
    cbn [rbind]. rewrite H2, R. reflexivity.
  - reflexivity.
Qed.

(** ** These statements at work in the demo environment *)

(** X2 on a problem given as text. *)
Lemma solve_replies_200_iff_witness :
  status (snd (handle (solve_problem Demo.key Demo.provider Demo.render
                         (Some Demo.question) None))) = 200
  /\ exists req r text,
       fst (handle (solve_problem Demo.key Demo.provider Demo.render
                      (Some Demo.question) None)) = [req]
       /\ provider_result (Demo.provider req) = inr r
       /\ first_choice_content r text
       /\ body (snd (handle (solve_problem Demo.key Demo.provider Demo.render
                               (Some Demo.question) None)))
          = solve_success (Some Demo.question) None r text
       /\ Demo.render
            (body (snd (handle (solve_problem Demo.key Demo.provider
                                  Demo.render (Some Demo.question) None))))
          = inr tt.
Proof.
  split; [vm_compute; reflexivity|].
  apply (proj1 (solve_replies_200_iff Demo.key Demo.provider Demo.render
                  (Some Demo.question) None
                  (body (snd (handle (solve_problem Demo.key Demo.provider Demo.render
                                        (Some Demo.question) None)))))).
  vm_compute. reflexivity.
Defined.

(** X3 on a question after a history of two messages. *)
Lemma chat_replies_200_iff_witness :
  status (snd (handle (chat Demo.key Demo.loads Demo.provider Demo.render Demo.question
                         (Some Demo.history_text)))) = 200
  /\ exists req r text,
       fst (handle (chat Demo.key Demo.loads Demo.provider Demo.render Demo.question
                      (Some Demo.history_text))) = [req]
       /\ provider_result (Demo.provider req) = inr r
       /\ first_choice_content r text
       /\ body (snd (handle (chat Demo.key Demo.loads Demo.provider Demo.render
                               Demo.question (Some Demo.history_text))))
          = chat_success r text
       /\ Demo.render
            (body (snd (handle (chat Demo.key Demo.loads Demo.provider
                                  Demo.render Demo.question
                                  (Some Demo.history_text)))))
          = inr tt.
Proof.
  split; [vm_compute; reflexivity|].
  apply (proj1 (chat_replies_200_iff Demo.key Demo.loads Demo.provider Demo.render
                  Demo.question (Some Demo.history_text)
                  (body (snd (handle (chat Demo.key Demo.loads Demo.provider Demo.render
                                        Demo.question
                                        (Some Demo.history_text))))))).
  vm_compute. reflexivity.
Defined.

(** X4 on an upload that cannot be read. *)
Lemma unreadable_image_replies_500_witness :
  read Demo.unreadable_photo = inl (OtherException (py "closed file"))
  /\ handle (solve_problem Demo.key Demo.provider Demo.render (Some Demo.question)
               (Some Demo.unreadable_photo))
     = ([], error_reply 500
              (py "Internal server error: 400: Image processing error: closed file")).
Proof.
  split; [reflexivity|].
  rewrite (unreadable_image_replies_500 Demo.key Demo.provider Demo.render
             (Some Demo.question) Demo.unreadable_photo
             (OtherException (py "closed file")) eq_refl).
  vm_compute. reflexivity.
Defined.

(** X5 on the history [null], and on a reader that gives up on a text. *)
Lemma history_that_cannot_be_spliced_fails_witness :
  (Demo.loads (py "null") = inr PNone
   /\ handle (chat Demo.key Demo.loads Demo.provider Demo.render Demo.question
                (Some (py "null")))
      = ([], error_reply 500
               (py "Internal server error: 'NoneType' object is not iterable")))
  /\ status (snd (handle (chat Demo.key
                            (fun _ => inl (OtherException
                                             (py "maximum recursion depth exceeded")))
                            Demo.provider Demo.render Demo.question (Some (py "[[[[")))))
     = 500.
Proof.
  split; [split; [vm_compute; reflexivity|]|].
  - assert (py "null" <> []) as Hne
      by (intros H; vm_compute in H; discriminate H).
    rewrite (proj1 (history_that_cannot_be_spliced_fails Demo.key Demo.loads
                      Demo.provider Demo.render Demo.question (py "null") Hne)
               PNone (TypeError (py "'NoneType' object is not iterable"))).
    + vm_compute. reflexivity.
    + vm_compute. reflexivity.
    + vm_compute. reflexivity.
  - assert (py "[[[[" <> []) as Hne
      by (intros H; vm_compute in H; discriminate H).
    apply (proj2 (history_that_cannot_be_spliced_fails Demo.key
                    (fun _ => inl (OtherException
                                     (py "maximum recursion depth exceeded")))
                    Demo.provider Demo.render Demo.question (py "[[[[") Hne)
             (OtherException (py "maximum recursion depth exceeded"))
             eq_refl eq_refl).
Defined.

(** X6 on a history that is one message object, not a list of them. *)
Lemma history_dict_or_string_is_spliced_witness :
  Demo.loads (py "{" ++ Demo.q "role" ++ py ": " ++ Demo.q "user" ++ py "}")
  = inr (PDict [(py "role", PStr (py "user"))])
  /\ outbound (handle (chat Demo.key Demo.loads Demo.provider Demo.render Demo.question
                         (Some (py "{" ++ Demo.q "role" ++ py ": "
                                ++ Demo.q "user" ++ py "}"))))
     = [PList [system_message; PStr (py "role");
               user_message_of (PStr Demo.question)]].
Proof.
  assert (Demo.loads (py "{" ++ Demo.q "role" ++ py ": " ++ Demo.q "user"
                      ++ py "}")
          = inr (PDict [(py "role", PStr (py "user"))])) as E
    by (vm_compute; reflexivity).
  split; [exact E|].
  assert (py "{" ++ Demo.q "role" ++ py ": " ++ Demo.q "user" ++ py "}" <> [])
    as Hne by (intros H; vm_compute in H; discriminate H).
  exact (proj1 (history_dict_or_string_is_spliced Demo.key Demo.loads
                  Demo.provider Demo.render Demo.question _ Hne) _ E).
Defined.

(** X7 on a provider that answers 200 with a page of HTML. *)
Lemma undecodable_body_is_an_internal_error_witness :
  json_result {| status_code := 200; reason := py "status 200";
                 json_result := Demo.loads (py "<html>") |}
  = inl (JSONDecodeError (py "Expecting value"))
  /\ snd (handle (chat Demo.key Demo.loads (Demo.answers 200 (py "<html>")) Demo.render
                    Demo.question None))
     = error_reply 500 (py "Internal server error: Expecting value").
Proof.
  split; [vm_compute; reflexivity|].
  rewrite (undecodable_body_is_an_internal_error Demo.key Demo.loads
             (Demo.answers 200 (py "<html>")) Demo.render
             (chat Demo.key Demo.loads (Demo.answers 200 (py "<html>")) Demo.render
                Demo.question None)
             (Demo.sent [system_message; user_message_of (PStr Demo.question)])
             {| status_code := 200; reason := py "status 200";
                json_result := Demo.loads (py "<html>") |}
             (py "Expecting value")).
  - vm_compute. reflexivity.
  - constructor.
  - vm_compute. reflexivity.
  - vm_compute. reflexivity.
  - simpl. lia.
  - vm_compute. reflexivity.
Defined.

(** X8 on the key of the demo environment. *)
Lemma loaded_service_has_a_key_witness :
  load_api_key (Some Demo.key) = inr Demo.key
  /\ field (py "api_key_configured") (health Demo.key) = PBool true
  /\ load_api_key None
     = inl (OtherException (py "GROQ_API_KEY environment variable is required")).
Proof.
  assert (load_api_key (Some Demo.key) = inr Demo.key) as E
    by (vm_compute; reflexivity).
  split; [exact E|split].
  - exact (proj2 (proj2 (proj1 (loaded_service_has_a_key (Some Demo.key))
                           Demo.key E))).
  - apply (proj1 (proj2 (loaded_service_has_a_key None))). left. reflexivity.
Defined.

(** X9 on the request [/chat] sends in the demo environment. *)
Lemma requests_carry_the_key_witness :
  In (Demo.sent [system_message; user_message_of (PStr Demo.question)])
     (fst (handle (chat Demo.key Demo.loads Demo.provider Demo.render Demo.question None)))
  /\ header (py "Authorization")
       (headers (Demo.sent [system_message;
                            user_message_of (PStr Demo.question)]))
     = py "Bearer gsk_demo".
Proof.
  assert (In (Demo.sent [system_message; user_message_of (PStr Demo.question)])
            (fst (handle (chat Demo.key Demo.loads Demo.provider Demo.render
                            Demo.question None)))) as Hin
    by (rewrite handle_chat; left; reflexivity).
  split; [exact Hin|].
  rewrite (proj1 (requests_carry_the_key (Some Demo.key) Demo.key Demo.loads
                    Demo.provider Demo.render _ _ eq_refl
                    (endpoint_chat _ _ _ _ Demo.question None) Hin)).
  vm_compute. reflexivity.
Defined.

(** X11 on a client that returns one choice. *)
Lemma chat_v1_reply_witness :
  Main1.respond Demo.render
    (Main1.chat
       (fun _ => inr {| Main1.choices :=
                          [{| Main1.choice_message :=
                                {| Main1.content := Some (py "x = 4") |} |}] |})
       (OtherException (py "Input should be a valid string"))
       {| Main1.message := Demo.question;
          Main1.session_id := py "default" |})
  = Reply 200 (PDict [(py "response", PStr (py "x = 4"))]).
Proof.
  apply (proj2 (proj1 (chat_v1_reply _ _ _ _) (py "x = 4"))).
  eexists _, _, _. repeat split.
Defined.

(** ** A list of choices that is there and counts as empty *)

Lemma check_choices_falsy (d : list (str * value)) (choices : value) :
  lookup (py "choices") d = Some choices ->
  truthy choices = false ->
  check_choices (PDict d)
  = inl (HTTPException 500 (py "Invalid response from AI service")).
Proof.
  intros E T. unfold check_choices, py_contains, py_getitem.
  rewrite E. cbn [rbind negb]. rewrite T. reflexivity.
Qed.

(** X12: the check of the response goes by truth value, not by type: a
    response whose [choices] is [null], [false], zero, an empty string or
    an empty dict is refused like one with an empty list, with the same
    500 reply. *)
Theorem falsy_choices_are_invalid
  (key : str) (loads : str -> result value) (post : request -> result response)
  (render : value -> result unit)
  (ep : io value) (req : request) (d : list (str * value)) (choices : value) :
  endpoint key loads post render ep ->
  fst (handle ep) = [req] ->
  provider_result (post req) = inr (PDict d) ->
  lookup (py "choices") d = Some choices ->
  truthy choices = false ->
  snd (handle ep)
  = error_reply 500
      (py "Internal server error: 500: Invalid response from AI service").
Proof.
  intros Hep Hreq Hr E T.
  destruct (handle_sent _ _ _ _ _ _ Hep Hreq) as (content & -> & Hc).
  rewrite Hr. cbn [rbind].
  assert (content (PDict d)
          = inl (HTTPException 500 (py "Invalid response from AI service")))
    as ->.
  { destruct Hc as [(pt & img & _ & ->)|(m & h & _ & ->)].
    - unfold solve_content. rewrite (check_choices_falsy _ _ E T). reflexivity.
    - unfold chat_content. rewrite (check_choices_falsy _ _ E T). reflexivity. }
  apply invalid_response_reply.
Qed.

(** X12 on a provider whose response has [null] for its choices. *)
Lemma falsy_choices_are_invalid_witness :
  Demo.loads (py "{" ++ Demo.q "choices" ++ py ": null}")
  = inr (PDict [(py "choices", PNone)])
  /\ snd (handle (chat Demo.key Demo.loads
                    (Demo.answers 200
                       (py "{" ++ Demo.q "choices" ++ py ": null}")) Demo.render
                    Demo.question None))
     = error_reply 500
         (py "Internal server error: 500: Invalid response from AI service").
Proof.
  split; [vm_compute; reflexivity|].
  apply (falsy_choices_are_invalid Demo.key Demo.loads
           (Demo.answers 200 (py "{" ++ Demo.q "choices" ++ py ": null}")) Demo.render
           _ (Demo.sent [system_message; user_message_of (PStr Demo.question)])
           [(py "choices", PNone)] PNone).
  - constructor.
  - vm_compute. reflexivity.
  - vm_compute. reflexivity.
  - reflexivity.
  - reflexivity.
Defined.
